(** * The adaptive interaction-and-rendering pipeline of [src/app/page.tsx]

    A shallow embedding of the React hooks of the page and the proofs of the
    properties the specification states about them.

    Conventions of the embedding.

    - A JavaScript [number] is an exact rational ([Q]): the arithmetic of the
      hooks (sums, products, quotients by a positive width, comparisons with
      decimal constants) is carried out without the rounding of IEEE doubles,
      and a division is only ever evaluated at a non-zero divisor.  Values
      that the code keeps integral (frame counts, rounded FPS samples,
      [Date.now()] milliseconds, pixel widths) are [Z].
    - A hook is a record of its [useState]/[useRef] cells; an event handler or
      an effect body is a function from the cells captured by the render that
      created it to the new cells.  A value read through a closure is the one
      of that render, as in React.
    - A call that leaves the page ([navigator.vibrate],
      [localStorage.setItem]) is appended to an explicit log. *)

From Stdlib Require Import String.
From Stdlib Require Import QArith ZArith List Bool Lia Lqa Qabs Qround Qminmax.
Import ListNotations.

Local Open Scope Q_scope.

(** ** The fragment of [Math] and of the comparison operators used *)

Module JS.

(** [a < b] and [a >= b] on numbers. *)
Definition ltb (a b : Q) : bool := negb (Qle_bool b a).
Definition geb (a b : Q) : bool := Qle_bool b a.
Definition gtb (a b : Q) : bool := negb (Qle_bool a b).

(** [Math.round]: the nearest integer, halves towards +infinity. *)
Definition Math_round (x : Q) : Z := Qfloor (x + (1 # 2)).

(** [Math.max], [Math.min] and [Math.abs], by the comparison they make. *)
Definition Math_max (a b : Q) : Q := if Qle_bool a b then b else a.
Definition Math_min (a b : Q) : Q := if Qle_bool a b then a else b.
Definition Math_abs (a : Q) : Q := if Qle_bool 0 a then a else - a.

End JS.

(** ** [usePerformanceMonitor]: the frame-rate sampler *)

Inductive PerformanceLevel : Set := high | medium | low.

Module PerformanceMonitor.

(** The cells of one instance of the hook.  [animationFrame] records
    whether a [requestAnimationFrame] callback is pending.  [avgFPS] is the
    field of that name of the object returned by the last committed render:
    the hook computes it in its body, from the history the render reads,
    and a render is committed only when a [useState] cell changes or the
    calling component renders again. *)
Record state : Set := mkState {
  fps : Z;
  performanceLevel : PerformanceLevel;
  isMonitoring : bool;
  frameCount : Z;
  lastTime : Q;
  fpsHistory : list Z;
  animationFrame : bool;
  avgFPS : Z
}.

(** The first render, at [performance.now() = t0]: the history is empty,
    so the object returned has [avgFPS: 60]. *)
Definition initial (t0 : Q) : state :=
  mkState 60 high false 0 t0 [] false 60.

(** [fpsHistory.current.reduce((a, b) => a + b, 0)] *)
Definition reduce_sum (h : list Z) : Z := fold_left Z.add h 0%Z.

(** [reduce(...) / fpsHistory.current.length], evaluated when the history
    is not empty. *)
Definition average (h : list Z) : Q :=
  inject_Z (reduce_sum h) / inject_Z (Z.of_nat (length h)).

(** The [if (avgFPS >= 55) ... else if (avgFPS >= 35) ... else ...]
    cascade of [measureFPS]. *)
Definition levelOf (avgFPS : Q) : PerformanceLevel :=
  if JS.geb avgFPS 55 then high
  else if JS.geb avgFPS 35 then medium
  else low.

(** [push(currentFPS)] followed by [shift()] when more than ten samples
    are held. *)
Definition pushSample (h : list Z) (currentFPS : Z) : list Z :=
  let h' := h ++ [currentFPS] in
  if (10 <? length h')%nat then tl h' else h'.

(** The expression of the [avgFPS] field in the body of the hook, for the
    history a render reads. *)
Definition renderedAvgFPS (h : list Z) : Z :=
  if (0 <? length h)%nat
  then JS.Math_round (average h)
  else 60%Z.

(** A committed render: the object returned is computed anew. *)
Definition render (s : state) : state :=
  mkState (fps s) (performanceLevel s) (isMonitoring s) (frameCount s)
          (lastTime s) (fpsHistory s) (animationFrame s)
          (renderedAvgFPS (fpsHistory s)).

Definition level_eqb (a b : PerformanceLevel) : bool :=
  match a, b with
  | high, high | medium, medium | low, low => true
  | _, _ => false
  end.

(** One call of [measureFPS] at [performance.now() = now].  The second
    component is the argument of [setFps] when a window was completed.
    [setFps] and [setPerformanceLevel] commit a render only when one of
    them changes its cell; a window that repeats both values leaves the
    object returned by the previous render in place. *)
Definition measureFPS (now : Q) (s : state) : state * option Z :=
  let frameCount' := (frameCount s + 1)%Z in
  if JS.geb (now - lastTime s) 1000 then
    let currentFPS :=
      JS.Math_round ((inject_Z frameCount' * 1000) / (now - lastTime s)) in
    let history' := pushSample (fpsHistory s) currentFPS in
    let avgFPS' := average history' in
    let changed :=
      negb (currentFPS =? fps s)%Z
      || negb (level_eqb (levelOf avgFPS') (performanceLevel s)) in
    (mkState currentFPS (levelOf avgFPS') (isMonitoring s) 0 now history'
             (isMonitoring s)
             (if changed then renderedAvgFPS history' else avgFPS s),
     Some currentFPS)
  else
    (mkState (fps s) (performanceLevel s) (isMonitoring s) frameCount'
             (lastTime s) (fpsHistory s) (isMonitoring s) (avgFPS s),
     None).

(** [startMonitoring] / [stopMonitoring] with the effect they trigger:
    the effect schedules the first callback, its clean-up cancels the
    pending one.  [setIsMonitoring] commits a render when it changes the
    cell. *)
Definition startMonitoring (s : state) : state :=
  mkState (fps s) (performanceLevel s) true (frameCount s) (lastTime s)
          (fpsHistory s) true
          (if isMonitoring s then avgFPS s else renderedAvgFPS (fpsHistory s)).
Definition stopMonitoring (s : state) : state :=
  mkState (fps s) (performanceLevel s) false (frameCount s) (lastTime s)
          (fpsHistory s) false
          (if isMonitoring s then renderedAvgFPS (fpsHistory s) else avgFPS s).

(** What can happen to an instance: an animation frame at a given time,
    one of the two buttons, or a render of the component that calls the
    hook. *)
Inductive event : Set :=
| Frame (now : Q)
| Start
| Stop
| Render.

(** A frame runs [measureFPS] only when a callback is pending. *)
Definition step (e : event) (s : state) : state * option Z :=
  match e with
  | Frame now => if animationFrame s then measureFPS now s else (s, None)
  | Start => (startMonitoring s, None)
  | Stop => (stopMonitoring s, None)
  | Render => (render s, None)
  end.

(** Running a sequence of events; the samples passed to [setFps] are
    collected in the order they were produced. *)
Fixpoint run (es : list event) (s : state) : state * list Z :=
  match es with
  | [] => (s, [])
  | e :: es' =>
      let '(s1, o) := step e s in
      let '(s2, ws) := run es' s1 in
      (s2, match o with Some w => w :: ws | None => ws end)
  end.

(** The arithmetic mean of a list of samples, as the specification words
    it: the sum of the values over their number. *)
Fixpoint total (l : list Z) : Z :=
  match l with
  | [] => 0%Z
  | w :: l' => (w + total l')%Z
  end.
Definition mean (l : list Z) : Q := inject_Z (total l) / inject_Z (Z.of_nat (length l)).

(** The last [k] elements of a list. *)
Definition lastn {A : Type} (k : nat) (l : list A) : list A :=
  skipn (length l - k) l.

(** A measurement window of [k] frames, the last one at time [t]. *)
Definition window (k : nat) (t : Q) : list event :=
  repeat (Frame (t - 1)) (k - 1) ++ [Frame t].

(** The level is the one of the average of the history, or the initial
    one while the history is empty. *)
Definition level_inv (s : state) : Prop :=
  match fpsHistory s with
  | [] => performanceLevel s = high
  | _ :: _ => performanceLevel s = levelOf (average (fpsHistory s))
  end.

(** While the history is empty every render has returned [avgFPS: 60]. *)
Definition shown_inv (s : state) : Prop :=
  fpsHistory s = [] -> avgFPS s = 60%Z.

End PerformanceMonitor.

(** ** [useOptimizedAnimation]: the adaptive animation policy *)

Module OptimizedAnimation.

Record state : Set := mkState {
  shouldAnimate : bool;
  animationQuality : Q
}.

(** [useState(enabled)] and [useState(1)]. *)
Definition initial (enabled : bool) : state := mkState enabled 1.

(** The body of the effect on [performanceLevel, enabled]; [innerWidth] is
    [window.innerWidth] when the effect runs.  Every branch sets both
    cells. *)
Definition effect (performanceLevel : PerformanceLevel) (enabled : bool)
           (innerWidth : Z) : state :=
  match performanceLevel with
  | high => mkState enabled 1
  | medium => mkState enabled 0.7
  | low => mkState (enabled && (768 <? innerWidth)%Z) 0.4
  end.

End OptimizedAnimation.

(** ** [useScrollAnimation]: the visibility tracker in reveal mode *)

Module ScrollAnimation.

(** [isVisible] is the [useState] cell; [observing] tells whether the
    observer of the current effect still observes the element;
    [refCurrent] whether [ref.current] holds an element. *)
Record state : Set := mkState {
  isVisible : bool;
  observing : bool;
  refCurrent : bool;
  performanceLevel : PerformanceLevel
}.

Definition initial (refCurrent : bool) : state :=
  mkState false false refCurrent high.

(** The options the observer is created with. *)
Definition threshold (l : PerformanceLevel) : Q :=
  match l with low => 0.3 | _ => 0.1 end.
Definition rootMargin (l : PerformanceLevel) : String.string :=
  match l with low => "0px"%string | _ => "0px 0px -50px 0px"%string end.

(** The observer callback, for an entry with the given
    [isIntersecting]. *)
Definition callback (isIntersecting : bool) (s : state) : state :=
  if isIntersecting
  then mkState true false (refCurrent s) (performanceLevel s)
  else s.

(** The clean-up of the effect, and the effect itself. *)
Definition cleanup (s : state) : state :=
  if refCurrent s
  then mkState (isVisible s) false (refCurrent s) (performanceLevel s)
  else s.
Definition effect (l : PerformanceLevel) (s : state) : state :=
  mkState (isVisible s) (refCurrent s) (refCurrent s) l.

Inductive event : Set :=
| Mount
| Intersection (isIntersecting : bool)
| LevelChanged (l : PerformanceLevel)
| Unmount.

(** Mounting runs the effect; the browser only calls the callback of an
    observer that observes the element; a change of level runs the
    clean-up and then the effect again. *)
Definition step (e : event) (s : state) : state :=
  match e with
  | Mount => effect (performanceLevel s) s
  | Intersection b => if observing s then callback b s else s
  | LevelChanged l => effect l (cleanup s)
  | Unmount => cleanup s
  end.

Definition run (es : list event) (s : state) : state :=
  fold_left (fun s e => step e s) es s.

End ScrollAnimation.

(** ** [useHapticFeedback]: the haptic feedback controller *)

(** A vibration pattern: [number | number[]]. *)
Inductive Pattern : Set :=
| ms (n : Z)
| pulses (l : list Z).

(** What the page does to the outside: the calls of [navigator.vibrate],
    each with the [Date.now()] of the moment it is made, oldest first, and
    the item ["haptic-feedback"] of [localStorage]. *)
Record World : Set := mkWorld {
  vibrations : list (Z * Pattern);
  haptic_feedback : option String.string
}.

(** What the page reads from the browser.  A laid-out window has positive
    dimensions. *)
Record Window : Set := mkWindow {
  innerWidth : positive;
  innerHeight : positive;
  ontouchstart : bool;          (* "ontouchstart" in window *)
  navigator_vibrate : bool      (* "vibrate" in navigator *)
}.

(** [window.innerWidth < 768 || "ontouchstart" in window] *)
Definition mobileClass (w : Window) : bool :=
  (Z.pos (innerWidth w) <? 768)%Z || ontouchstart w.

(** A phone with the vibration capability, and a desktop browser. *)
Definition phone : Window := mkWindow 390 844 true true.
Definition desktop : Window := mkWindow 1280 800 false true.

Module HapticFeedback.

Record state : Set := mkState {
  isSupported : bool;
  isEnabled : bool;
  isMobile : bool
}.

Definition initial : state := mkState false true false.

(** The predefined patterns. *)
Record Patterns : Set := mkPatterns {
  touch : Pattern;
  release : Pattern;
  longPress : Pattern;
  error : Pattern;
  success : Pattern;
  gentle : Pattern
}.
Definition patterns : Patterns :=
  mkPatterns (ms 12) (ms 8) (pulses [15; 50; 10]%Z) (pulses [20; 100; 20]%Z)
             (pulses [10; 50; 15; 50; 10]%Z) (ms 6).

Definition checkSupport (w : Window) (s : state) : state :=
  let mobile := mobileClass w in
  mkState (mobile && navigator_vibrate w) (isEnabled s) mobile.

(** The mount effect: [checkSupport()], then the saved preference. *)
Definition mount (w : Window) (world : World) (s : state) : state :=
  let s1 := checkSupport w s in
  match haptic_feedback world with
  | Some savedPreference =>
      mkState (isSupported s1) (String.eqb savedPreference "true") (isMobile s1)
  | None => s1
  end.

(** [navigator.vibrate(pattern)], called at time [now]. *)
Definition navigator_vibrate_call (now : Z) (p : Pattern) (world : World) : World :=
  mkWorld (vibrations world ++ [(now, p)]) (haptic_feedback world).

(** [vibrate], as created by the render that saw the cells [s]. *)
Definition vibrate (s : state) (now : Z) (p : Pattern) (world : World) : World :=
  if isSupported s && isEnabled s && isMobile s
  then navigator_vibrate_call now p world
  else world.

(** [newState.toString()] *)
Definition toString (b : bool) : String.string :=
  if b then "true"%string else "false"%string.

(** [toggleHaptics], as created by the render that saw the cells [s]: the
    [vibrate] it calls is the one of that same render, which reads
    [isEnabled] of [s]; [setIsEnabled] only takes effect in the next
    render, whose cells are the first component of the result. *)
Definition toggleHaptics (s : state) (now : Z) (world : World) : state * World :=
  let newState := negb (isEnabled s) in
  let s' := mkState (isSupported s) newState (isMobile s) in
  let world1 := mkWorld (vibrations world) (Some (toString newState)) in
  let world2 := if newState then vibrate s now (ms 15) world1 else world1 in
  (s', world2).

End HapticFeedback.

(** ** Positions *)

(** [{ x, y }] *)
Record Vec2 : Set := vec2 { x : Q; y : Q }.

(** What an event handler sees through its closure: the cells of the
    [useHapticFeedback] and [useOptimizedAnimation] instances of the render
    that created the handler. *)
Record Captured : Set := mkCaptured {
  haptic : HapticFeedback.state;
  policy : OptimizedAnimation.state
}.

(** [(client - inner / 2) / inner * animationQuality], the offset of a
    pointer from the centre of the window along one axis. *)
Definition offsetFromCentre (client : Q) (inner : positive) (animationQuality : Q) : Q :=
  ((client - inject_Z (Z.pos inner) / 2) / inject_Z (Z.pos inner)) * animationQuality.

(** ** [useMousePosition] *)

Module MousePosition.

(** [clientX], [clientY] of a [MouseEvent]. *)
Record MouseEvent : Set := mkMouseEvent { clientX : Q; clientY : Q }.

(** [pending] holds the event and the closure of the scheduled animation
    frame callback; [ticking.current] is true exactly when there is
    one. *)
Record state : Set := mkState {
  mousePosition : Vec2;
  pending : option (Captured * MouseEvent)
}.

Definition initial : state := mkState (vec2 0 0) None.

Definition handleMouseMove (c : Captured) (e : MouseEvent) (s : state) : state :=
  match pending s with
  | None => mkState (mousePosition s) (Some (c, e))
  | Some _ => s
  end.

(** The callback given to [requestAnimationFrame]. *)
Definition frame (w : Window) (s : state) : state :=
  match pending s with
  | Some (c, e) =>
      let q := OptimizedAnimation.animationQuality (policy c) in
      mkState (vec2 (offsetFromCentre (clientX e) (innerWidth w) q)
                    (offsetFromCentre (clientY e) (innerHeight w) q))
              None
  | None => s
  end.

End MousePosition.

(** ** [useTouchPosition] *)

Module TouchPosition.

(** [e.touches[0]], when there is one: its [clientX] and [clientY]. *)
Record Touch : Set := mkTouch { clientX : Q; clientY : Q }.
Definition TouchEvent : Set := option Touch.

(** [intervals] counts the release intervals that were started by
    [handleTouchEnd] and not yet cleared. *)
Record state : Set := mkState {
  touchPosition : Vec2;
  isActive : bool;
  smoothedPosition : Vec2;
  lastVibrateTime : Z;
  pending : option (Captured * TouchEvent);
  intervals : nat
}.

Definition initial : state := mkState (vec2 0 0) false (vec2 0 0) 0 None 0.

(** [Math.max(-0.8, Math.min(0.8, v))] *)
Definition clamp (v : Q) : Q := JS.Math_max (-0.8) (JS.Math_min 0.8 v).

Definition newPosition (c : Captured) (w : Window) (t : Touch) : Vec2 :=
  let q := OptimizedAnimation.animationQuality (policy c) in
  vec2 (clamp (offsetFromCentre (clientX t) (innerWidth w) q))
       (clamp (offsetFromCentre (clientY t) (innerHeight w) q)).

Definition handleTouchStart (c : Captured) (w : Window) (now : Z) (e : TouchEvent)
           (sw : state * World) : state * World :=
  let '(s, world) := sw in
  let elapsed := (100 <? now - lastVibrateTime s)%Z in
  let world' :=
    if elapsed
    then HapticFeedback.vibrate (haptic c) now
           (HapticFeedback.touch HapticFeedback.patterns) world
    else world in
  let last' := if elapsed then now else lastVibrateTime s in
  let position' :=
    match e with
    | Some t => newPosition c w t
    | None => touchPosition s
    end in
  (mkState position' true (smoothedPosition s) last' (pending s) (intervals s),
   world').

(** [handleTouchMove] only schedules the callback. *)
Definition handleTouchMove (c : Captured) (e : TouchEvent) (s : state) : state :=
  if negb (isActive s) || negb (OptimizedAnimation.shouldAnimate (policy c)) then s
  else
    match pending s with
    | None =>
        mkState (touchPosition s) (isActive s) (smoothedPosition s)
                (lastVibrateTime s) (Some (c, e)) (intervals s)
    | Some _ => s
    end.

(** [Math.sqrt(x ** 2 + y ** 2) > 0.6], decided on the squares. *)
Definition farFromCentre (p : Vec2) : bool :=
  JS.gtb (x p * x p + y p * y p) (0.6 * 0.6).

(** The callback [handleTouchMove] gave to [requestAnimationFrame]. *)
Definition frame (w : Window) (now : Z) (sw : state * World) : state * World :=
  let '(s, world) := sw in
  match pending s with
  | Some (c, Some t) =>
      let p := newPosition c w t in
      if (300 <? now - lastVibrateTime s)%Z && farFromCentre p
      then (mkState p (isActive s) (smoothedPosition s) now None (intervals s),
            HapticFeedback.vibrate (haptic c) now
              (HapticFeedback.gentle HapticFeedback.patterns) world)
      else (mkState p (isActive s) (smoothedPosition s) (lastVibrateTime s)
                    None (intervals s),
            world)
  | Some (c, None) =>
      (mkState (touchPosition s) (isActive s) (smoothedPosition s)
               (lastVibrateTime s) None (intervals s),
       world)
  | None => sw
  end.

Definition handleTouchEnd (c : Captured) (now : Z) (sw : state * World)
  : state * World :=
  let '(s, world) := sw in
  (mkState (touchPosition s) false (smoothedPosition s) (lastVibrateTime s)
           (pending s) (S (intervals s)),
   HapticFeedback.vibrate (haptic c) now
     (HapticFeedback.release HapticFeedback.patterns) world).

(** The updater the release interval passes to [setTouchPosition]; the
    boolean tells whether it called [clearInterval]. *)
Definition decay (prev : Vec2) : Vec2 * bool :=
  let newX := x prev * 0.92 in
  let newY := y prev * 0.92 in
  if JS.ltb (JS.Math_abs newX) 0.01 && JS.ltb (JS.Math_abs newY) 0.01
  then (vec2 0 0, true)
  else (vec2 newX newY, false).

(** One tick of one release interval. *)
Definition decayTick (s : state) : state :=
  match intervals s with
  | O => s
  | S n =>
      let '(p, cleared) := decay (touchPosition s) in
      mkState p (isActive s) (smoothedPosition s) (lastVibrateTime s)
              (pending s) (if cleared then n else S n)
  end.

(** One tick of the smoothing interval. *)
Definition smoothingTick (s : state) : state :=
  let prev := smoothedPosition s in
  mkState (touchPosition s) (isActive s)
          (vec2 (x prev + (x (touchPosition s) - x prev) * 0.1)
                (y prev + (y (touchPosition s) - y prev) * 0.1))
          (lastVibrateTime s) (pending s) (intervals s).

Inductive event : Set :=
| TouchStart (c : Captured) (w : Window) (now : Z) (e : TouchEvent)
| TouchMove (c : Captured) (e : TouchEvent)
| AnimationFrame (w : Window) (now : Z)
| TouchEnd (c : Captured) (now : Z)
| DecayTick
| SmoothingTick.

(** The three listeners exist only under [shouldAnimate]. *)
Definition step (ev : event) (sw : state * World) : state * World :=
  match ev with
  | TouchStart c w now e =>
      if OptimizedAnimation.shouldAnimate (policy c)
      then handleTouchStart c w now e sw else sw
  | TouchMove c e =>
      if OptimizedAnimation.shouldAnimate (policy c)
      then (handleTouchMove c e (fst sw), snd sw) else sw
  | AnimationFrame w now => frame w now sw
  | TouchEnd c now =>
      if OptimizedAnimation.shouldAnimate (policy c)
      then handleTouchEnd c now sw else sw
  | DecayTick => (decayTick (fst sw), snd sw)
  | SmoothingTick => (smoothingTick (fst sw), snd sw)
  end.

Definition run (evs : list event) (sw : state * World) : state * World :=
  fold_left (fun sw ev => step ev sw) evs sw.

(** The release sequence on its own: the position and whether the
    interval is still running, after [n] ticks. *)
Fixpoint release (n : nat) (p : Vec2) : Vec2 * bool :=
  match n with
  | O => (p, true)
  | S n' =>
      let '(p', running) := release n' p in
      if running
      then let '(p'', cleared) := decay p' in (p'', negb cleared)
      else (p', false)
  end.

(** The square of the magnitude of a position. *)
Definition magnitude2 (p : Vec2) : Q := x p * x p + y p * y p.

(** [n] multiplications by 0.92. *)
Fixpoint scale (n : nat) (v : Q) : Q :=
  match n with
  | O => v
  | S n' => scale n' v * 0.92
  end.

(** In a log, two calls with the pattern [p] are more than [d]
    milliseconds apart. *)
Definition spaced (d : Z) (p : Pattern) (log : list (Z * Pattern)) : Prop :=
  forall l1 l2 l3 t1 t2,
    log = l1 ++ (t1, p) :: l2 ++ (t2, p) :: l3 -> (d < t2 - t1)%Z.

(** The throttled calls of the log were made no later than the time kept
    in [lastVibrateTime], and are spaced. *)
Definition throttle_inv (sw : state * World) : Prop :=
  let log := vibrations (snd sw) in
  (forall t p, In (t, p) log ->
               p = HapticFeedback.touch HapticFeedback.patterns \/
               p = HapticFeedback.gentle HapticFeedback.patterns ->
               (t <= lastVibrateTime (fst sw))%Z) /\
  spaced 100 (HapticFeedback.touch HapticFeedback.patterns) log /\
  spaced 300 (HapticFeedback.gentle HapticFeedback.patterns) log.

End TouchPosition.

(** ** [useDeviceOrientation] *)

Module DeviceOrientation.

(** [{ x, y, z }] *)
Record Vec3 : Set := vec3 { x : Q; y : Q; z : Q }.

(** [alpha], [beta], [gamma] of a [DeviceOrientationEvent]; each can be
    [null]. *)
Record OrientationEvent : Set := mkOrientationEvent {
  alpha : option Q;
  beta : option Q;
  gamma : option Q
}.

Record state : Set := mkState {
  orientation : Vec3;
  isSupported : bool;
  smoothedOrientation : Vec3;
  permissionGranted : bool;
  pending : option (Captured * OrientationEvent)
}.

Definition initial : state :=
  mkState (vec3 0 0 0) false (vec3 0 0 0) false None.

(** [Math.max(-20, Math.min(20, v)) / 20] *)
Definition tilt (v : Q) : Q := JS.Math_max (-20) (JS.Math_min 20 v) / 20.

Definition handleOrientation (c : Captured) (e : OrientationEvent) (s : state) : state :=
  match pending s with
  | None =>
      mkState (orientation s) (isSupported s) (smoothedOrientation s)
              (permissionGranted s) (Some (c, e))
  | Some _ => s
  end.

(** The callback [handleOrientation] gave to [requestAnimationFrame]. *)
Definition frame (s : state) : state :=
  match pending s with
  | Some (c, e) =>
      let q := OptimizedAnimation.animationQuality (policy c) in
      let orientation' :=
        match beta e, gamma e, alpha e with
        | Some b, Some g, Some a =>
            vec3 (tilt g * 0.6 * q) (tilt (b - 45) * 0.4 * q) ((a / 360) * 0.2 * q)
        | _, _, _ => orientation s
        end in
      mkState orientation' (isSupported s) (smoothedOrientation s)
              (permissionGranted s) None
  | None => s
  end.

(** How [requestPermission] can end: the platform asks and the user
    grants or refuses, the request throws, the platform does not ask, or
    it has no [DeviceOrientationEvent] at all. *)
Inductive Platform : Set :=
| Granted | Refused | Throws | NoPrompt | Undefined.

Definition requestPermission (c : Captured) (p : Platform) (now : Z)
           (sw : state * World) : state * World :=
  let '(s, world) := sw in
  let supported :=
    mkState (orientation s) true (smoothedOrientation s) true (pending s) in
  match p with
  | Granted =>
      (supported,
       HapticFeedback.vibrate (haptic c) now
         (HapticFeedback.success HapticFeedback.patterns) world)
  | Refused => sw
  | Throws =>
      (s, HapticFeedback.vibrate (haptic c) now
            (HapticFeedback.error HapticFeedback.patterns) world)
  | NoPrompt =>
      (supported,
       HapticFeedback.vibrate (haptic c) now
         (HapticFeedback.gentle HapticFeedback.patterns) world)
  | Undefined => sw
  end.

(** One tick of the smoothing interval. *)
Definition smoothingTick (s : state) : state :=
  let prev := smoothedOrientation s in
  let o := orientation s in
  mkState o (isSupported s)
          (vec3 (x prev + (x o - x prev) * 0.08)
                (y prev + (y o - y prev) * 0.08)
                (z prev + (z o - z prev) * 0.05))
          (permissionGranted s) (pending s).

End DeviceOrientation.

(** ** [useInteractionPosition]: the pointer fusion engine *)

Module InteractionPosition.

(** [{ width, height }] *)
Record ScreenSize : Set := mkScreenSize { width : Z; height : Z }.

Record state : Set := mkState {
  isMobile : bool;
  screenSize : ScreenSize
}.

Definition initial : state := mkState false (mkScreenSize 0 0).

Definition checkDevice (w : Window) (s : state) : state :=
  let width := Z.pos (innerWidth w) in
  let height := Z.pos (innerHeight w) in
  mkState ((width <? 768)%Z || ontouchstart w) (mkScreenSize width height).

Definition getScreenSizeMultiplier (s : state) : Q :=
  if (width (screenSize s) <? 400)%Z then 0.7
  else if (width (screenSize s) <? 768)%Z then 0.85
  else 1.

(** The value the hook returns in a render that sees the cells [s] and
    the values returned by the three hooks it combines. *)
Definition useInteractionPosition (mouse : MousePosition.state)
           (touch : TouchPosition.state) (tilt : DeviceOrientation.state)
           (s : state) : Vec2 :=
  let mousePosition := MousePosition.mousePosition mouse in
  let touchPosition := TouchPosition.smoothedPosition touch in
  let touchActive := TouchPosition.isActive touch in
  let orientation := DeviceOrientation.smoothedOrientation tilt in
  let orientationSupported := DeviceOrientation.isSupported tilt in
  let sizeMultiplier := getScreenSizeMultiplier s in
  if isMobile s then
    if touchActive then
      vec2 (x touchPosition * sizeMultiplier) (y touchPosition * sizeMultiplier)
    else if orientationSupported then
      vec2 (DeviceOrientation.x orientation * 0.15 * sizeMultiplier)
           (DeviceOrientation.y orientation * 0.1 * sizeMultiplier)
    else vec2 0 0
  else mousePosition.

End InteractionPosition.

(** ** [ParallaxElement]: the transform compositor *)

Module ParallaxElement.

Inductive Size : Set := small | medium | large.

Record Props : Set := mkProps {
  speed : Q;
  interactionSpeed : Q;
  size : Size
}.

(** The values of the hooks the component calls, and its own cell. *)
Record Hooks : Set := mkHooks {
  scrollOffset : Q;
  interactionPosition : Vec2;
  shouldAnimate : bool;
  animationQuality : Q;
  performanceLevel : PerformanceLevel;
  isInView : bool
}.

(** The two lengths of [translate3d] in pixels, and the duration of the
    transition in milliseconds. *)
Record Style : Set := mkStyle {
  translateX : Q;
  translateY : Q;
  transitionDuration : Z;
  willChange : bool
}.

Definition getSizeMultiplier (sz : Size) : Q :=
  match sz with
  | small => 1.2
  | large => 0.6
  | medium => 1
  end.

Definition maxMovement (sz : Size) (animationQuality : Q) : Q :=
  match sz with
  | large => 30
  | small => 60
  | medium => 45
  end * animationQuality.

(** The interaction term of one axis of the transform; [k] is 40 for the
    horizontal axis and 25 for the vertical one. *)
Definition displacement (p : Props) (h : Hooks) (position : Q) (k : Q) : Q :=
  let adjustedInteractionSpeed :=
    interactionSpeed p * getSizeMultiplier (size p) * animationQuality h in
  let maxMovement := maxMovement (size p) (animationQuality h) in
  JS.Math_max (- maxMovement)
    (JS.Math_min maxMovement (position * adjustedInteractionSpeed * k)).

(** The [style] of the element, or [None] when it is rendered without
    one. *)
Definition render (p : Props) (h : Hooks) : option Style :=
  let shouldRender :=
    negb (match performanceLevel h with low => true | _ => false end)
    || isInView h in
  if negb (shouldAnimate h) || negb shouldRender then None
  else
    Some (mkStyle
            (displacement p h (x (interactionPosition h)) 40)
            (scrollOffset h + displacement p h (y (interactionPosition h)) 25)
            (match performanceLevel h with low => 1000 | _ => 700 end)
            (match performanceLevel h with high => true | _ => false end)).

(** The largest displacement of each size class, as the specification
    tabulates it. *)
Definition maxDisplacement (sz : Size) : Q :=
  match sz with
  | small => 60
  | medium => 45
  | large => 30
  end.

End ParallaxElement.

(** ** [useParallax]: the scroll-parallax source *)

Module Parallax.

(** [pending] holds the [speed] and [animationQuality] captured by the
    scheduled animation frame callback; [ticking.current] is true exactly
    when there is one. *)
Record state : Set := mkState {
  offset : Q;
  pending : option (Q * Q)
}.

Definition initial : state := mkState 0 None.

Definition handleScroll (speed animationQuality : Q) (s : state) : state :=
  match pending s with
  | None => mkState (offset s) (Some (speed, animationQuality))
  | Some _ => s
  end.

(** The callback given to [requestAnimationFrame]; [pageYOffset] is
    [window.pageYOffset] when it runs. *)
Definition frame (pageYOffset : Q) (s : state) : state :=
  match pending s with
  | Some (speed, animationQuality) =>
      mkState (pageYOffset * speed * animationQuality) None
  | None => s
  end.

(** The value the hook returns. *)
Definition useParallax (shouldAnimate : bool) (s : state) : Q :=
  if shouldAnimate then offset s else 0.

End Parallax.

(** ** [HeroParallax]: the layers of the hero section *)

Module HeroParallax.

(** One transformed layer: the speed of the scroll offset it uses, and the
    factor and the limit of each axis of its interaction term. *)
Record Layer : Set := mkLayer {
  scrollSpeed : Q;
  factorY : Q;
  limitY : Q;
  factorX : Q;
  limitX : Q
}.

(** The five layers, in the order of the source. *)
Definition layers : list Layer :=
  [ mkLayer 0.3 12 15 18 20;
    mkLayer 0.5 15 20 20 25;
    mkLayer 0.2 10 12 15 18;
    mkLayer 0.3 12 15 8 10;
    mkLayer 0.5 18 20 12 15 ].

(** [translateX(...)] and [translateY(...)] of a layer, for the scroll
    offset of its speed. *)
Definition translateX (l : Layer) (interactionPosition : Vec2) : Q :=
  JS.Math_max (- limitX l) (JS.Math_min (limitX l) (x interactionPosition * factorX l)).
Definition translateY (l : Layer) (scrollOffset : Q) (interactionPosition : Vec2) : Q :=
  scrollOffset
  + JS.Math_max (- limitY l) (JS.Math_min (limitY l) (y interactionPosition * factorY l)).

(** [transitionDuration], in milliseconds. *)
Definition transitionDuration (l : PerformanceLevel) : Z :=
  match l with low => 1500 | _ => 1000 end.

End HeroParallax.

(** ** [AnimatedSection], [TimelineItem], [SignalCard]: revealed content *)

Module AnimatedSection.

(** The class that follows ["transition-all ease-out "]. *)
Definition className (animation : string) (shouldAnimate isVisible : bool) : string :=
  if shouldAnimate && isVisible
  then ("animate-" ++ animation)%string
  else "opacity-0 translate-y-8"%string.

(** [TimelineItem]: the class, and [transitionDelay]. *)
Definition timelineClassName (shouldAnimate isVisible : bool) : string :=
  if shouldAnimate && isVisible
  then "opacity-100 translate-x-0"%string
  else "opacity-0 -translate-x-8"%string.
Definition transitionDelay (delay : string) (shouldAnimate isVisible : bool) : string :=
  if shouldAnimate && isVisible then delay else "0ms"%string.

(** [animationDuration], in milliseconds. *)
Definition animationDuration (l : PerformanceLevel) : Z :=
  match l with low => 1000 | _ => 700 end.

End AnimatedSection.

(** ** [Home]: the rotating keywords *)

Module Home.

Definition keywords : list string :=
  ["AI"; "Automation"; "Agents"; "Innovation"; "Discipline"; "Integrity";
   "Loyalty"]%string.

(** The updater of the rotation timer: [(prev + 1) % keywords.length]. *)
Definition nextKeyword (prev : nat) : nat := (prev + 1) mod length keywords.

(** The period of the timer, in milliseconds. *)
Definition interval (l : PerformanceLevel) : Z :=
  match l with low => 2500 | _ => 2000 end.

(** [keywords[currentKeyword]]; [None] stands for [undefined]. *)
Definition shownKeyword (currentKeyword : nat) : option string :=
  nth_error keywords currentKeyword.

End Home.

(** ** The page: one set of cells per component *)

Module Page.

(** A component that calls [useTouchPosition] holds the cells of its own
    calls of [useHapticFeedback], [useOptimizedAnimation] and
    [useTouchPosition]; only the browser and [localStorage] are shared
    between components. *)
Record Instance : Set := mkInstance {
  haptics : HapticFeedback.state;
  animation : OptimizedAnimation.state;
  touch : TouchPosition.state
}.

(** What the handlers of an instance see through their closure. *)
Definition captured (i : Instance) : Captured :=
  mkCaptured (haptics i) (animation i).

(** An instance after its mount effects: the haptic cells read the stored
    preference, and the policy is the one of the level [high], since the
    sampler of [useOptimizedAnimation] is never started. *)
Definition mountInstance (w : Window) (world : World) : Instance :=
  mkInstance (HapticFeedback.mount w world HapticFeedback.initial)
             (OptimizedAnimation.effect high true (Z.pos (innerWidth w)))
             TouchPosition.initial.

(** [Home] mounts the fifteen [ParallaxElement]s of [BackgroundElements]
    and [HeroParallax]; each calls [useInteractionPosition], hence
    [useTouchPosition]. *)
Definition mount (w : Window) (world : World) : list Instance :=
  repeat (mountInstance w world) 16.

(** A [touchstart] on the window: the listener of every instance runs, in
    mounting order, all within the same millisecond [now]. *)
Fixpoint touchStart (w : Window) (now : Z) (e : TouchPosition.TouchEvent)
         (instances : list Instance) (world : World) : list Instance * World :=
  match instances with
  | [] => ([], world)
  | i :: rest =>
      let '(s', world') :=
        TouchPosition.step (TouchPosition.TouchStart (captured i) w now e)
                           (touch i, world) in
      let '(rest', world'') := touchStart w now e rest world' in
      (mkInstance (haptics i) (animation i) s' :: rest', world'')
  end.

End Page.

(** ** Predicates used by the invariants *)

(** Both components lie in [[-b, b]]. *)
Definition within (b : Q) (p : Vec2) : Prop :=
  (- b <= x p /\ x p <= b) /\ (- b <= y p /\ y p <= b).

(** The raw and the smoothed touch positions lie in [[-0.8, 0.8]]. *)
Definition touch_bounded (s : TouchPosition.state) : Prop :=
  within 0.8 (TouchPosition.touchPosition s) /\
  within 0.8 (TouchPosition.smoothedPosition s).

(** [n] presses of the haptic toggle, each by the render that follows the
    previous one, all at time [now]. *)
Fixpoint toggleTimes (n : nat) (now : Z) (sw : HapticFeedback.state * World)
  : HapticFeedback.state * World :=
  match n with
  | O => sw
  | S n' =>
      let '(s, world) := toggleTimes n' now sw in
      HapticFeedback.toggleHaptics s now world
  end.

(** The levels in increasing order. *)
Definition rank (l : PerformanceLevel) : nat :=
  match l with low => 0 | medium => 1 | high => 2 end.

(** * Properties *)

(** ** Comparisons and [Math] *)

Section JSFacts.

Import JS.

Lemma geb_le a b : geb a b = true <-> b <= a.
Proof. apply Qle_bool_iff. Qed.

Lemma geb_lt a b : geb a b = false <-> a < b.
Proof.
  unfold geb. split; intro H.
  - destruct (Qlt_le_dec a b) as [L | L]; [assumption | ].
    apply Qle_bool_iff in L. congruence.
  - destruct (Qle_bool b a) eqn:E; [ | reflexivity].
    apply Qle_bool_iff in E. lra.
Qed.

Lemma ltb_lt a b : ltb a b = true <-> a < b.
Proof. unfold ltb. rewrite negb_true_iff. apply geb_lt. Qed.

Lemma ltb_ge a b : ltb a b = false <-> b <= a.
Proof. unfold ltb. rewrite negb_false_iff. apply Qle_bool_iff. Qed.

Lemma gtb_gt a b : gtb a b = true <-> b < a.
Proof. unfold gtb. rewrite negb_true_iff. apply geb_lt. Qed.

Lemma gtb_le a b : gtb a b = false <-> a <= b.
Proof. unfold gtb. rewrite negb_false_iff. apply Qle_bool_iff. Qed.

Lemma Math_abs_Qabs a : Math_abs a == Qabs a.
Proof.
  unfold Math_abs. destruct (Qle_bool 0 a) eqn:E.
  - apply Qle_bool_iff in E. symmetry. now apply Qabs_pos.
  - apply (geb_lt a 0) in E. symmetry. apply Qabs_neg. lra.
Qed.

(** A value clamped to [[-m, m]] lies in it, when [m] is not negative. *)
Lemma clamp_bounds m v :
  0 <= m -> - m <= Math_max (- m) (Math_min m v) <= m.
Proof.
  intro Hm. unfold Math_max, Math_min.
  destruct (Qle_bool m v) eqn:E1.
  - destruct (Qle_bool (- m) m) eqn:E2; lra.
  - apply (geb_lt v m) in E1.
    destruct (Qle_bool (- m) v) eqn:E2.
    + apply Qle_bool_iff in E2. lra.
    + lra.
Qed.

End JSFacts.

(** ** The frame-rate sampler *)

Section PerformanceMonitorFacts.

Import PerformanceMonitor.

Lemma fold_left_add_acc (l : list Z) (a : Z) :
  fold_left Z.add l a = (a + total l)%Z.
Proof.
  revert a. induction l as [ | w l IH]; intro a; simpl.
  - lia.
  - rewrite IH. lia.
Qed.

Lemma reduce_sum_total (l : list Z) : reduce_sum l = total l.
Proof. unfold reduce_sum. rewrite fold_left_add_acc. lia. Qed.

Lemma average_mean (l : list Z) : average l = mean l.
Proof. unfold average, mean. now rewrite reduce_sum_total. Qed.

Lemma lastn_length {A : Type} (k : nat) (l : list A) :
  length (lastn k l) = Nat.min k (length l).
Proof. unfold lastn. rewrite length_skipn. lia. Qed.

Lemma lastn_all {A : Type} (k : nat) (l : list A) :
  (length l <= k)%nat -> lastn k l = l.
Proof.
  intro H. unfold lastn. replace (length l - k)%nat with O by lia. reflexivity.
Qed.

Lemma lastn_app_one {A : Type} (k : nat) (l : list A) (a : A) :
  lastn (S k) (l ++ [a]) = lastn k l ++ [a].
Proof.
  unfold lastn. rewrite length_app. simpl.
  replace (length l + 1 - S k)%nat with (length l - k)%nat by lia.
  rewrite skipn_app.
  replace (length l - k - length l)%nat with O by lia. reflexivity.
Qed.

Lemma tl_skipn {A : Type} (l : list A) : tl l = skipn 1 l.
Proof. destruct l; reflexivity. Qed.

(** [push] then [shift] keeps the last ten samples. *)
Lemma pushSample_lastn (h : list Z) (w : Z) :
  (length h <= 10)%nat -> pushSample h w = lastn 10 (h ++ [w]).
Proof.
  intro H. unfold pushSample.
  destruct (10 <? length (h ++ [w]))%nat eqn:E.
  - apply Nat.ltb_lt in E. rewrite length_app in E. simpl in E.
    unfold lastn. rewrite length_app. simpl.
    replace (length h + 1 - 10)%nat with 1%nat by lia. apply tl_skipn.
  - apply Nat.ltb_ge in E. symmetry. now apply lastn_all.
Qed.

Lemma pushSample_not_nil (h : list Z) (w : Z) : pushSample h w <> [].
Proof.
  unfold pushSample. destruct (10 <? length (h ++ [w]))%nat eqn:E.
  - apply Nat.ltb_lt in E. destruct (h ++ [w]) as [ | a [ | b t]]; simpl in *; try lia.
    discriminate.
  - destruct h; discriminate.
Qed.

(** What one step does to the history, in terms of the sample it
    produced. *)
Lemma step_history (e : event) (s : state) :
  fpsHistory (fst (step e s)) =
  match snd (step e s) with
  | Some w => pushSample (fpsHistory s) w
  | None => fpsHistory s
  end.
Proof.
  destruct e as [now | | | ]; simpl; try reflexivity.
  destruct (animationFrame s); [ | reflexivity].
  unfold measureFPS. destruct (JS.geb (now - lastTime s) 1000); reflexivity.
Qed.

Lemma step_level_inv (e : event) (s : state) :
  level_inv s -> level_inv (fst (step e s)).
Proof.
  intro H. destruct e as [now | | | ]; simpl; try exact H.
  destruct (animationFrame s); [ | exact H].
  unfold measureFPS. destruct (JS.geb (now - lastTime s) 1000); simpl.
  - unfold level_inv. simpl.
    destruct (pushSample (fpsHistory s) _) eqn:E; [ | reflexivity].
    now apply pushSample_not_nil in E.
  - exact H.
Qed.

Lemma step_shown_inv (e : event) (s : state) :
  shown_inv s -> shown_inv (fst (step e s)).
Proof.
  intro H. unfold shown_inv in *. destruct e as [now | | | ]; cbn [step fst].
  - destruct (animationFrame s); [ | exact H].
    unfold measureFPS. destruct (JS.geb (now - lastTime s) 1000); cbn [fst fpsHistory avgFPS].
    + intro E. now apply pushSample_not_nil in E.
    + exact H.
  - cbn [startMonitoring fpsHistory avgFPS]. intro E.
    destruct (isMonitoring s); [now apply H | rewrite E; reflexivity].
  - cbn [stopMonitoring fpsHistory avgFPS]. intro E.
    destruct (isMonitoring s); [rewrite E; reflexivity | now apply H].
  - cbn [render fpsHistory avgFPS]. intro E. rewrite E. reflexivity.
Qed.


Lemma run_cons (e : event) (es : list event) (s : state) :
  run (e :: es) s =
  (fst (run es (fst (step e s))),
   match snd (step e s) with
   | Some w => w :: snd (run es (fst (step e s)))
   | None => snd (run es (fst (step e s)))
   end).
Proof.
  simpl. destruct (step e s) as [s1 o]. simpl.
  destruct (run es s1) as [s2 ws]. reflexivity.
Qed.

Lemma lastn_lastn_app {A : Type} (l ws : list A) :
  lastn 10 (lastn 10 l ++ ws) = lastn 10 (l ++ ws).
Proof.
  unfold lastn. rewrite !length_app, length_skipn.
  rewrite (skipn_app _ l ws), (skipn_app _ (skipn _ l) ws).
  rewrite length_skipn, !skipn_skipn.
  destruct (Nat.le_gt_cases (length l) 10) as [L | L].
  - replace (length l - 10)%nat with O by lia. simpl.
    rewrite !Nat.sub_0_r, !Nat.add_0_r. reflexivity.
  - replace (length l - (length l - 10))%nat with 10%nat by lia.
    f_equal.
    + f_equal. lia.
    + f_equal. lia.
Qed.

Lemma run_history (es : list event) (s : state) :
  (length (fpsHistory s) <= 10)%nat ->
  fpsHistory (fst (run es s)) = lastn 10 (fpsHistory s ++ snd (run es s)).
Proof.
  revert s. induction es as [ | e es IH]; intros s H.
  - simpl. rewrite app_nil_r. symmetry. now apply lastn_all.
  - rewrite run_cons. simpl fst. simpl snd.
    pose proof (step_history e s) as Hs.
    destruct (snd (step e s)) as [w | ].
    + rewrite IH.
      * rewrite Hs, pushSample_lastn by assumption.
        rewrite lastn_lastn_app, <- app_assoc. reflexivity.
      * rewrite Hs, pushSample_lastn, lastn_length by assumption.
        apply Nat.le_min_l.
    + rewrite IH; rewrite Hs; [reflexivity | assumption].
Qed.

Lemma run_level_inv (es : list event) (s : state) :
  level_inv s -> level_inv (fst (run es s)).
Proof.
  revert s. induction es as [ | e es IH]; intros s H.
  - exact H.
  - rewrite run_cons. simpl. apply IH. now apply step_level_inv.
Qed.

Lemma run_shown_inv (es : list event) (s : state) :
  shown_inv s -> shown_inv (fst (run es s)).
Proof.
  revert s. induction es as [ | e es IH]; intros s H.
  - exact H.
  - rewrite run_cons. simpl. apply IH. now apply step_shown_inv.
Qed.

Lemma levelOf_step (a : Q) :
  (55 <= a -> levelOf a = high) /\
  (35 <= a -> a < 55 -> levelOf a = medium) /\
  (a < 35 -> levelOf a = low).
Proof.
  unfold levelOf. repeat split; intros.
  - assert (E : JS.geb a 55 = true) by now apply geb_le.
    now rewrite E.
  - assert (E1 : JS.geb a 55 = false) by now apply geb_lt.
    assert (E2 : JS.geb a 35 = true) by now apply geb_le.
    now rewrite E1, E2.
  - assert (E1 : JS.geb a 55 = false) by (apply geb_lt; lra).
    assert (E2 : JS.geb a 35 = false) by now apply geb_lt.
    now rewrite E1, E2.
Qed.

Lemma lastn_min {A : Type} (k : nat) (l : list A) :
  lastn (Nat.min k (length l)) l = lastn k l.
Proof. unfold lastn. f_equal. lia. Qed.

Example measureFPS_window :
  snd (run [Start; Frame 500; Frame 1000; Frame 1500; Frame 2004] (initial 0))
  = [2%Z; 2%Z].
Proof. reflexivity. Qed.

(** Twelve windows of 59, 58, ..., 48 frames: the two oldest samples are
    gone. *)
Example twelve_windows :
  let es := Start :: flat_map (fun i => window (60 - i) (1000 * inject_Z (Z.of_nat i)))
                               (seq 1 12) in
  snd (run es (initial 0)) = [59; 58; 57; 56; 55; 54; 53; 52; 51; 50; 49; 48]%Z /\
  fpsHistory (fst (run es (initial 0))) = [57; 56; 55; 54; 53; 52; 51; 50; 49; 48]%Z /\
  performanceLevel (fst (run es (initial 0))) = medium /\
  avgFPS (fst (run es (initial 0))) = 53%Z.
Proof. vm_compute. repeat split. Qed.

(** Windows of 50, 60 and 60 frames: the third repeats the [fps] and the
    level of the second and commits no render, so the object returned still
    has the average of the first two; the next render of the calling
    component brings it up to date. *)
Example repeated_window_commits_no_render :
  let es := Start :: window 50 1000 ++ window 60 2000 ++ window 60 3000 in
  avgFPS (fst (run es (initial 0))) = 55%Z /\
  renderedAvgFPS (fpsHistory (fst (run es (initial 0)))) = 57%Z /\
  avgFPS (fst (run (es ++ [Render]) (initial 0))) = 57%Z.
Proof. vm_compute. repeat split. Qed.

Example levelOf_60_40_20 :
  levelOf 60 = high /\ levelOf 40 = medium /\ levelOf 20 = low.
Proof. repeat split. Qed.

End PerformanceMonitorFacts.

(** C2.  After any sequence of frames, button presses and renders, the
    history of the sampler is the last [min(10, n)] of the [n] samples
    produced so far and never holds more than ten; once a window has been
    completed, the rolling average computed by [measureFPS] is the
    arithmetic mean of those samples, and the level is the step function of
    that mean: [high] from 55, [medium] from 35, [low] below. *)
Theorem C2_rolling_average_and_tier (t0 : Q) (es : list PerformanceMonitor.event) :
  let s := fst (PerformanceMonitor.run es (PerformanceMonitor.initial t0)) in
  let ws := snd (PerformanceMonitor.run es (PerformanceMonitor.initial t0)) in
  let recent := PerformanceMonitor.lastn (Nat.min 10 (length ws)) ws in
  PerformanceMonitor.fpsHistory s = recent /\
  (length (PerformanceMonitor.fpsHistory s) <= 10)%nat /\
  (ws <> [] ->
   PerformanceMonitor.average (PerformanceMonitor.fpsHistory s)
   = PerformanceMonitor.mean recent /\
   (55 <= PerformanceMonitor.mean recent ->
    PerformanceMonitor.performanceLevel s = high) /\
   (35 <= PerformanceMonitor.mean recent -> PerformanceMonitor.mean recent < 55 ->
    PerformanceMonitor.performanceLevel s = medium) /\
   (PerformanceMonitor.mean recent < 35 ->
    PerformanceMonitor.performanceLevel s = low)).
Proof.
  intros s ws recent.
  assert (Hh : PerformanceMonitor.fpsHistory s = recent).
  { unfold s, recent, ws. rewrite run_history by (simpl; lia).
    simpl app. symmetry. apply lastn_min. }
  assert (Hl : (length (PerformanceMonitor.fpsHistory s) <= 10)%nat).
  { rewrite Hh. unfold recent. rewrite lastn_length. lia. }
  split; [exact Hh | split; [exact Hl | ]].
  intro Hws.
  assert (Hne : PerformanceMonitor.fpsHistory s <> []).
  { rewrite Hh. unfold recent. intro E.
    apply (f_equal (@length Z)) in E. rewrite lastn_length in E.
    destruct ws; [congruence | simpl in E; lia]. }
  assert (Hlevel : PerformanceMonitor.performanceLevel s
                   = PerformanceMonitor.levelOf (PerformanceMonitor.mean recent)).
  { pose proof (run_level_inv es (PerformanceMonitor.initial t0) eq_refl) as Hinv.
    fold s in Hinv. unfold PerformanceMonitor.level_inv in Hinv.
    destruct (PerformanceMonitor.fpsHistory s) eqn:E; [congruence | ].
    rewrite Hinv, average_mean, Hh. reflexivity. }
  destruct (levelOf_step (PerformanceMonitor.mean recent)) as (H1 & H2 & H3).
  split; [ | split; [ | split]].
  - rewrite average_mean, Hh. reflexivity.
  - intro. rewrite Hlevel. auto.
  - intros. rewrite Hlevel. auto.
  - intro. rewrite Hlevel. auto.
Qed.

Lemma C2_rolling_average_and_tier_witness :
  let es := PerformanceMonitor.Start
            :: PerformanceMonitor.window 50 1000
            ++ PerformanceMonitor.window 60 2000
            ++ PerformanceMonitor.window 60 3000 in
  let s := fst (PerformanceMonitor.run es (PerformanceMonitor.initial 0)) in
  PerformanceMonitor.fpsHistory s = [50; 60; 60]%Z /\
  PerformanceMonitor.average (PerformanceMonitor.fpsHistory s) == 170 # 3 /\
  PerformanceMonitor.performanceLevel s = high.
Proof.
  intros es s.
  destruct (C2_rolling_average_and_tier 0 es) as (Hh & _ & H).
  assert (Hws : snd (PerformanceMonitor.run es (PerformanceMonitor.initial 0))
                = [50; 60; 60]%Z) by (vm_compute; reflexivity).
  assert (Hrecent :
            PerformanceMonitor.lastn
              (Nat.min 10
                 (length (snd (PerformanceMonitor.run es (PerformanceMonitor.initial 0)))))
              (snd (PerformanceMonitor.run es (PerformanceMonitor.initial 0)))
            = [50; 60; 60]%Z) by (rewrite Hws; reflexivity).
  rewrite Hrecent in Hh, H.
  assert (Hne : snd (PerformanceMonitor.run es (PerformanceMonitor.initial 0)) <> [])
    by (rewrite Hws; discriminate).
  destruct (H Hne) as (Ha & Hhigh & _).
  split; [exact Hh | split].
  - unfold s. rewrite Ha. reflexivity.
  - apply Hhigh. vm_compute. discriminate.
Defined.

(** C10.  As long as no measurement window has been completed, the history
    is empty, the exposed [avgFPS] is 60 and the level is [high], so that the
    animation policy computed from it has quality 1 and animates whenever
    it is enabled. *)
Theorem C10_before_first_window (t0 : Q) (es : list PerformanceMonitor.event) :
  snd (PerformanceMonitor.run es (PerformanceMonitor.initial t0)) = [] ->
  let s := fst (PerformanceMonitor.run es (PerformanceMonitor.initial t0)) in
  PerformanceMonitor.fpsHistory s = [] /\
  PerformanceMonitor.avgFPS s = 60%Z /\
  PerformanceMonitor.performanceLevel s = high /\
  forall (enabled : bool) (innerWidth : Z),
    OptimizedAnimation.effect (PerformanceMonitor.performanceLevel s) enabled innerWidth
    = OptimizedAnimation.mkState enabled 1.
Proof.
  intros Hws s.
  assert (Hh : PerformanceMonitor.fpsHistory s = []).
  { unfold s. rewrite run_history by (simpl; lia). rewrite Hws. reflexivity. }
  pose proof (run_level_inv es (PerformanceMonitor.initial t0) eq_refl) as Hinv.
  fold s in Hinv. unfold PerformanceMonitor.level_inv in Hinv. rewrite Hh in Hinv.
  split; [exact Hh | split; [ | split; [exact Hinv | ]]].
  - apply (run_shown_inv es (PerformanceMonitor.initial t0)); [ | exact Hh].
    intros _. reflexivity.
  - intros. rewrite Hinv. reflexivity.
Qed.

Lemma C10_before_first_window_witness :
  let es := [PerformanceMonitor.Start; PerformanceMonitor.Frame 16;
             PerformanceMonitor.Frame 33; PerformanceMonitor.Frame 999] in
  let s := fst (PerformanceMonitor.run es (PerformanceMonitor.initial 0)) in
  PerformanceMonitor.frameCount s = 3%Z /\
  PerformanceMonitor.avgFPS s = 60%Z /\
  PerformanceMonitor.performanceLevel s = high.
Proof.
  intros es s.
  destruct (C10_before_first_window 0 es eq_refl) as (_ & Ha & Hl & _).
  split; [reflexivity | split; [exact Ha | exact Hl]].
Defined.

(** ** The animation policy *)

Example policy_low_on_a_phone :
  OptimizedAnimation.effect low true 390 = OptimizedAnimation.mkState false 0.4.
Proof. reflexivity. Qed.

Example policy_low_on_a_desktop :
  OptimizedAnimation.effect low true 1280 = OptimizedAnimation.mkState true 0.4.
Proof. reflexivity. Qed.

(** C3.  The policy the effect installs is determined by the level, the
    enabled flag and the width of the window alone: its quality is 1, 0.7 or
    0.4 for [high], [medium] or [low], and it animates unless the flag is
    off or the level is [low] on a window at most 768 wide. *)
Theorem C3_policy_of_level_flag_width
        (l : PerformanceLevel) (enabled : bool) (innerWidth : Z) :
  let p := OptimizedAnimation.effect l enabled innerWidth in
  OptimizedAnimation.animationQuality p
  = match l with high => 1 | medium => 0.7 | low => 0.4 end /\
  (OptimizedAnimation.shouldAnimate p = false <->
   enabled = false \/ (l = low /\ (innerWidth <= 768)%Z)) /\
  (OptimizedAnimation.shouldAnimate p = true <->
   ~ (enabled = false \/ (l = low /\ (innerWidth <= 768)%Z))).
Proof.
  intro p. subst p. split; [destruct l; reflexivity | ].
  destruct l, enabled; simpl;
    try (destruct (Z.ltb_spec 768 innerWidth));
    intuition (try discriminate; try congruence; try lia).
Qed.

(** ** The visibility tracker *)

Section ScrollAnimationFacts.

Import ScrollAnimation.

Lemma step_keeps_visible (e : event) (s : state) :
  isVisible s = true -> isVisible (step e s) = true.
Proof.
  intro H. destruct e as [ | b | l | ]; simpl.
  - exact H.
  - destruct (observing s); [ | exact H].
    unfold callback. destruct b; [reflexivity | exact H].
  - unfold cleanup. destruct (refCurrent s); exact H.
  - unfold cleanup. destruct (refCurrent s); exact H.
Qed.

Lemma run_keeps_visible (es : list event) (s : state) :
  isVisible s = true -> isVisible (run es s) = true.
Proof.
  revert s. induction es as [ | e es IH]; intros s H; simpl.
  - exact H.
  - apply IH. now apply step_keeps_visible.
Qed.

Lemma run_app (es1 es2 : list event) (s : state) :
  run (es1 ++ es2) s = run es2 (run es1 s).
Proof. unfold run. apply fold_left_app. Qed.

Example reveal_then_leave :
  let s := run [Mount; Intersection false; Intersection true;
                Intersection false; LevelChanged low; Intersection false]
               (initial true) in
  isVisible s = true /\ observing s = true.
Proof. split; reflexivity. Qed.

End ScrollAnimationFacts.

(** C9.  Once the tracker has reported an element as visible, no later
    sequence of intersection changes, level changes or unmounting makes it
    report the element as not visible; and the intersection that reveals the
    element detaches the observer. *)
Theorem C9_revealed_stays_revealed
        (es1 es2 : list ScrollAnimation.event) (refCurrent : bool) :
  let s := ScrollAnimation.run es1 (ScrollAnimation.initial refCurrent) in
  ScrollAnimation.isVisible s = true ->
  ScrollAnimation.isVisible
    (ScrollAnimation.run (es1 ++ es2) (ScrollAnimation.initial refCurrent)) = true /\
  forall s', ScrollAnimation.observing s' = true ->
             ScrollAnimation.observing
               (ScrollAnimation.step (ScrollAnimation.Intersection true) s') = false.
Proof.
  intros s H. split.
  - rewrite run_app. now apply run_keeps_visible.
  - intros s' Ho. simpl. rewrite Ho. reflexivity.
Qed.

Lemma C9_revealed_stays_revealed_witness :
  ScrollAnimation.isVisible
    (ScrollAnimation.run
       ([ScrollAnimation.Mount; ScrollAnimation.Intersection true]
          ++ [ScrollAnimation.LevelChanged low; ScrollAnimation.Intersection false])
       (ScrollAnimation.initial true)) = true.
Proof.
  exact (proj1 (C9_revealed_stays_revealed
                  [ScrollAnimation.Mount; ScrollAnimation.Intersection true]
                  [ScrollAnimation.LevelChanged low; ScrollAnimation.Intersection false]
                  true eq_refl)).
Defined.

(** ** The haptic feedback controller *)

Section HapticFeedbackFacts.

Import HapticFeedback.

Example vibrate_on_a_phone :
  vibrations (vibrate (checkSupport phone initial) 5 (ms 12) (mkWorld [] None))
  = [(5%Z, ms 12)].
Proof. reflexivity. Qed.

(** The three cells that close the gate. *)
Lemma vibrate_closed (s : state) (now : Z) (p : Pattern) (world : World) :
  isSupported s = false \/ isMobile s = false \/ isEnabled s = false ->
  vibrate s now p world = world.
Proof.
  unfold vibrate. intros [H | [H | H]]; rewrite H;
    rewrite ?andb_false_r; reflexivity.
Qed.

Lemma vibrate_open (s : state) (now : Z) (p : Pattern) (world : World) :
  isSupported s = true -> isMobile s = true -> isEnabled s = true ->
  vibrations (vibrate s now p world) = vibrations world ++ [(now, p)].
Proof. unfold vibrate. intros -> -> ->. reflexivity. Qed.

(** [vibrate] adds at most its own call to the log. *)
Lemma vibrate_log (s : state) (now : Z) (p : Pattern) (world : World) :
  vibrations (vibrate s now p world) = vibrations world \/
  vibrations (vibrate s now p world) = vibrations world ++ [(now, p)].
Proof.
  unfold vibrate.
  destruct (isSupported s && isEnabled s && isMobile s); [right | left]; reflexivity.
Qed.

(** [toggleHaptics] calls [vibrate] only when the render it comes from
    saw the preference disabled, and that [vibrate] is gated by the
    same cell. *)
Lemma toggleHaptics_silent (s : state) (now : Z) (world : World) :
  vibrations (snd (toggleHaptics s now world)) = vibrations world.
Proof.
  unfold toggleHaptics. simpl. destruct (isEnabled s) eqn:E; simpl.
  - reflexivity.
  - rewrite vibrate_closed by (right; right; exact E). reflexivity.
Qed.

Lemma toggleHaptics_flips (s : state) (now : Z) (world : World) :
  isEnabled (fst (toggleHaptics s now world)) = negb (isEnabled s) /\
  haptic_feedback (snd (toggleHaptics s now world))
  = Some (toString (negb (isEnabled s))).
Proof.
  unfold toggleHaptics. simpl. split; [reflexivity | ].
  destruct (isEnabled s) eqn:E; simpl; [reflexivity | ].
  rewrite vibrate_closed by (right; right; exact E). reflexivity.
Qed.

End HapticFeedbackFacts.

(** Within one instance of the hook: after the support check on any
    window, [vibrate] leaves the log of vibration calls as it was whenever
    the platform has no vibration capability, or the device is not of the
    mobile class, or the [isEnabled] cell of that instance is false. *)
Lemma vibrate_is_gated_by_its_instance
        (w : Window) (s0 : HapticFeedback.state) (now : Z) (p : Pattern)
        (world : World) :
  navigator_vibrate w = false \/ mobileClass w = false \/
  HapticFeedback.isEnabled s0 = false ->
  HapticFeedback.vibrate (HapticFeedback.checkSupport w s0) now p world = world.
Proof.
  intro H. apply vibrate_closed. unfold HapticFeedback.checkSupport. simpl.
  destruct H as [H | [H | H]]; rewrite H.
  - left. apply andb_false_r.
  - right. left. reflexivity.
  - right. right. reflexivity.
Qed.

(** The gates of the platform hold for every instance of the page, since
    every instance checks the same window. *)
Example no_capability_or_desktop_never_vibrates :
  let world := mkWorld [] None in
  vibrations (snd (Page.touchStart (mkWindow 390 844 true false) 1000 None
                     (Page.mount (mkWindow 390 844 true false) world) world)) = [] /\
  vibrations (snd (Page.touchStart desktop 1000 None (Page.mount desktop world) world))
  = [].
Proof. vm_compute. split; reflexivity. Qed.

(** C6.  The user's preference does not close the gate of the instances that
    vibrate.  On a capable phone with haptics enabled, the sixteen touch
    instances of the page and the toggle button are mounted; the user
    presses the toggle, which disables the preference of the button's own
    instance and stores ["false"]; a touch start then still makes sixteen
    vibration calls, because every touch instance keeps the [isEnabled] it
    read when it mounted.  Instances mounted after the press, which read the
    stored item, make none. *)
Theorem C6_disabled_preference_still_vibrates :
  let world0 := mkWorld [] None in
  let button := HapticFeedback.mount phone world0 HapticFeedback.initial in
  let instances := Page.mount phone world0 in
  let pressed := HapticFeedback.toggleHaptics button 1000 world0 in
  HapticFeedback.isEnabled (fst pressed) = false /\
  haptic_feedback (snd pressed) = Some "false"%string /\
  vibrations (snd (Page.touchStart phone 2000
                     (Some (TouchPosition.mkTouch 195 422)) instances (snd pressed)))
  = repeat (2000%Z, ms 12) 16 /\
  vibrations (snd (Page.touchStart phone 2000
                     (Some (TouchPosition.mkTouch 195 422))
                     (Page.mount phone (snd pressed)) (snd pressed))) = [].
Proof. vm_compute. repeat split. Qed.

(** C7.  On a capable phone whose preference is disabled, [toggleHaptics]
    enables the preference and stores ["true"], and no vibration call is
    made: the confirmation pulse that the comments of the handler announce
    is not sent. *)
Theorem C7_toggle_to_enabled_fires_no_pulse :
  let s := HapticFeedback.mkState true false true in
  let r := HapticFeedback.toggleHaptics s 1000 (mkWorld [] (Some "false"%string)) in
  HapticFeedback.isEnabled (fst r) = true /\
  haptic_feedback (snd r) = Some "true"%string /\
  vibrations (snd r) = [] /\
  (* the same render's [vibrate] is what stays silent *)
  vibrations (HapticFeedback.vibrate s 1000 (ms 15) (mkWorld [] None)) = [] /\
  (* the next render's [vibrate] would have made the call *)
  vibrations (HapticFeedback.vibrate (fst r) 1000 (ms 15) (mkWorld [] None))
  = [(1000%Z, ms 15)].
Proof. repeat split. Qed.

(** ** The touch handlers: throttled pulses *)

Section TouchThrottle.

Import TouchPosition.

Lemma spaced_nil (d : Z) (p : Pattern) : spaced d p [].
Proof. intros [ | ? ?] ? ? ? ? E; discriminate E. Qed.

Lemma spaced_snoc_other (d : Z) (p p' : Pattern) (t : Z) log :
  p' <> p -> spaced d p log -> spaced d p (log ++ [(t, p')]).
Proof.
  intros Hp Hs l1 l2 l3 t1 t2 E.
  destruct l3 as [ | a l3 _] using rev_ind.
  - change (l1 ++ (t1, p) :: l2 ++ [(t2, p)])
      with (l1 ++ ((t1, p) :: l2) ++ [(t2, p)]) in E.
    rewrite app_assoc in E. apply app_inj_tail in E as [_ E]. congruence.
  - change (l1 ++ (t1, p) :: l2 ++ (t2, p) :: l3 ++ [a])
      with (l1 ++ ((t1, p) :: l2) ++ ((t2, p) :: l3) ++ [a]) in E.
    rewrite !app_assoc in E. apply app_inj_tail in E as [E _].
    apply (Hs l1 l2 l3). rewrite E, <- !app_assoc. reflexivity.
Qed.

Lemma spaced_snoc_same (d : Z) (p : Pattern) (t : Z) log :
  (forall t1, In (t1, p) log -> (d < t - t1)%Z) ->
  spaced d p log -> spaced d p (log ++ [(t, p)]).
Proof.
  intros Hnew Hs l1 l2 l3 t1 t2 E.
  destruct l3 as [ | a l3 _] using rev_ind.
  - change (l1 ++ (t1, p) :: l2 ++ [(t2, p)])
      with (l1 ++ ((t1, p) :: l2) ++ [(t2, p)]) in E.
    rewrite app_assoc in E. apply app_inj_tail in E as [E1 E2].
    injection E2 as <-. apply Hnew. rewrite E1.
    apply in_or_app. right. now left.
  - change (l1 ++ (t1, p) :: l2 ++ (t2, p) :: l3 ++ [a])
      with (l1 ++ ((t1, p) :: l2) ++ ((t2, p) :: l3) ++ [a]) in E.
    rewrite !app_assoc in E. apply app_inj_tail in E as [E _].
    apply (Hs l1 l2 l3). rewrite E, <- !app_assoc. reflexivity.
Qed.

(** A throttled call at a time past the stored one keeps the invariant,
    whether the gate of [vibrate] lets it through or not. *)
Lemma throttled_call_inv (h : HapticFeedback.state) (d now : Z) (p : Pattern)
      (s s' : state) (world : World) :
  throttle_inv (s, world) ->
  lastVibrateTime s' = now ->
  (100 <= d)%Z -> (d < now - lastVibrateTime s)%Z ->
  (p = HapticFeedback.touch HapticFeedback.patterns /\ d = 100%Z) \/
  (p = HapticFeedback.gentle HapticFeedback.patterns /\ d = 300%Z) ->
  throttle_inv (s', HapticFeedback.vibrate h now p world).
Proof.
  intros (Hb & H1 & H2) Hlast Hd Hnow Hp. unfold throttle_inv. simpl.
  destruct (vibrate_log h now p world) as [E | E]; rewrite E, Hlast.
  - split; [ | split; assumption].
    intros t q Hin Hq. specialize (Hb t q Hin Hq). simpl in Hb. lia.
  - split; [ | split].
    + intros t q Hin Hq. apply in_app_or in Hin as [Hin | [Hin | []]].
      * specialize (Hb t q Hin Hq). simpl in Hb. lia.
      * injection Hin as <- _. lia.
    + destruct Hp as [[-> ->] | [-> ->]].
      * apply spaced_snoc_same; [ | assumption].
        intros t1 Hin. specialize (Hb t1 _ Hin (or_introl eq_refl)).
        simpl in Hb. lia.
      * apply spaced_snoc_other; [discriminate | assumption].
    + destruct Hp as [[-> ->] | [-> ->]].
      * apply spaced_snoc_other; [discriminate | assumption].
      * apply spaced_snoc_same; [ | assumption].
        intros t1 Hin. specialize (Hb t1 _ Hin (or_intror eq_refl)).
        simpl in Hb. lia.
Qed.

(** The release pulse is not throttled and does not count for the
    throttle. *)
Lemma release_call_inv (h : HapticFeedback.state) (now : Z)
      (s s' : state) (world : World) :
  throttle_inv (s, world) ->
  lastVibrateTime s' = lastVibrateTime s ->
  throttle_inv (s', HapticFeedback.vibrate h now
                      (HapticFeedback.release HapticFeedback.patterns) world).
Proof.
  intros (Hb & H1 & H2) Hlast. unfold throttle_inv. cbn [fst snd].
  destruct (vibrate_log h now (HapticFeedback.release HapticFeedback.patterns) world)
    as [E | E]; rewrite E, Hlast.
  - repeat split; assumption.
  - split; [ | split].
    + intros t q Hin Hq. apply in_app_or in Hin as [Hin | [Hin | []]].
      * exact (Hb t q Hin Hq).
      * injection Hin as _ <-. simpl in Hq. destruct Hq as [Hq | Hq]; discriminate Hq.
    + apply spaced_snoc_other; [simpl; discriminate | assumption].
    + apply spaced_snoc_other; [simpl; discriminate | assumption].
Qed.

Lemma same_log_inv (s s' : state) (world : World) :
  throttle_inv (s, world) ->
  lastVibrateTime s' = lastVibrateTime s ->
  throttle_inv (s', world).
Proof.
  intros (Hb & H1 & H2) Hlast. unfold throttle_inv. simpl. rewrite Hlast.
  repeat split; assumption.
Qed.

Lemma step_throttle_inv (ev : event) (sw : state * World) :
  throttle_inv sw -> throttle_inv (step ev sw).
Proof.
  intro H. destruct sw as [s world].
  destruct ev as [c w now e | c e | w now | c now | | ]; simpl.
  - destruct (OptimizedAnimation.shouldAnimate (policy c)); [ | exact H].
    destruct (Z.ltb_spec 100 (now - lastVibrateTime s)) as [L | L]; simpl.
    + apply (throttled_call_inv _ 100 now _ s); auto; lia.
    + now apply (same_log_inv s).
  - destruct (OptimizedAnimation.shouldAnimate (policy c)); [ | exact H].
    unfold handleTouchMove.
    destruct (negb (isActive s) || _); [exact H | ].
    destruct (pending s); [exact H | ]. now apply (same_log_inv s).
  - destruct (pending s) as [[c [t | ]] | ]; [ | | exact H].
    + destruct (Z.ltb_spec 300 (now - lastVibrateTime s)) as [L | L]; simpl.
      * destruct (farFromCentre (newPosition c w t)).
        -- apply (throttled_call_inv _ 300 now _ s); auto; lia.
        -- now apply (same_log_inv s).
      * now apply (same_log_inv s).
    + now apply (same_log_inv s).
  - destruct (OptimizedAnimation.shouldAnimate (policy c)); [ | exact H].
    now apply (release_call_inv _ _ s).
  - unfold decayTick. destruct (intervals s); [exact H | ].
    destruct (decay (touchPosition s)). now apply (same_log_inv s).
  - now apply (same_log_inv s).
Qed.

Lemma run_throttle_inv (evs : list event) (sw : state * World) :
  throttle_inv sw -> throttle_inv (run evs sw).
Proof.
  revert sw. induction evs as [ | ev evs IH]; intros sw H; simpl.
  - exact H.
  - apply IH. now apply step_throttle_inv.
Qed.

Lemma initial_throttle_inv (saved : option string) :
  throttle_inv (initial, mkWorld [] saved).
Proof.
  unfold throttle_inv. simpl. repeat split.
  - intros t p [].
  - apply spaced_nil.
  - apply spaced_nil.
Qed.

(** Two taps 200 ms apart and one 50 ms after the second, with a release
    in between, on an enabled phone. *)
Example three_taps :
  let c := mkCaptured (HapticFeedback.mkState true true true)
                      (OptimizedAnimation.initial true) in
  vibrations (snd (run [TouchStart c phone 1000 None; TouchEnd c 1100;
                        TouchStart c phone 1200 None;
                        TouchStart c phone 1250 None]
                       (initial, mkWorld [] None)))
  = [(1000%Z, ms 12); (1100%Z, ms 8); (1200%Z, ms 12)].
Proof. reflexivity. Qed.

End TouchThrottle.

(** Within one instance of the hook: in the log of the vibration calls
    made by its touch handlers, whatever the sequence of touch events,
    animation frames and timer ticks, any two touch-start pulses are more
    than 100 ms apart and any two move pulses more than 300 ms apart. *)
Lemma one_instance_pulses_are_throttled
        (evs : list TouchPosition.event) (saved : option string) :
  let log := vibrations (snd (TouchPosition.run evs
                                (TouchPosition.initial, mkWorld [] saved))) in
  (forall l1 l2 l3 t1 t2,
      log = l1 ++ (t1, HapticFeedback.touch HapticFeedback.patterns)
               :: l2 ++ (t2, HapticFeedback.touch HapticFeedback.patterns) :: l3 ->
      (100 < t2 - t1)%Z) /\
  (forall l1 l2 l3 t1 t2,
      log = l1 ++ (t1, HapticFeedback.gentle HapticFeedback.patterns)
               :: l2 ++ (t2, HapticFeedback.gentle HapticFeedback.patterns) :: l3 ->
      (300 < t2 - t1)%Z).
Proof.
  intro log.
  destruct (run_throttle_inv evs _ (initial_throttle_inv saved)) as (_ & H1 & H2).
  split; [exact H1 | exact H2].
Qed.

Lemma touchStart_cons_world
      (w : Window) (now : Z) (e : TouchPosition.TouchEvent)
      (i : Page.Instance) (rest : list Page.Instance) (world : World) :
  snd (Page.touchStart w now e (i :: rest) world)
  = snd (Page.touchStart w now e rest
           (snd (TouchPosition.step
                   (TouchPosition.TouchStart (Page.captured i) w now e)
                   (Page.touch i, world)))).
Proof.
  cbn [Page.touchStart].
  destruct (TouchPosition.step _ (Page.touch i, world)) as [s' world'].
  cbn [snd]. destruct (Page.touchStart w now e rest world'). reflexivity.
Qed.

(** A touch start reaches every instance that can vibrate and whose own
    throttle has elapsed: each of them makes its call. *)
Lemma touchStart_pulse_per_instance
      (k : nat) (w : Window) (now : Z) (e : TouchPosition.TouchEvent)
      (i : Page.Instance) (world : World) :
  OptimizedAnimation.shouldAnimate (Page.animation i) = true ->
  HapticFeedback.isSupported (Page.haptics i) = true ->
  HapticFeedback.isEnabled (Page.haptics i) = true ->
  HapticFeedback.isMobile (Page.haptics i) = true ->
  (100 < now - TouchPosition.lastVibrateTime (Page.touch i))%Z ->
  vibrations (snd (Page.touchStart w now e (repeat i k) world))
  = vibrations world ++ repeat (now, HapticFeedback.touch HapticFeedback.patterns) k.
Proof.
  intros Ha Hs He Hm Ht. revert world.
  induction k as [ | k IH]; intro world.
  - simpl. now rewrite app_nil_r.
  - cbn [repeat]. rewrite touchStart_cons_world, IH.
    cbn [TouchPosition.step Page.captured policy haptic]. rewrite Ha.
    unfold TouchPosition.handleTouchStart.
    apply Z.ltb_lt in Ht. rewrite Ht. cbn [snd].
    rewrite vibrate_open by assumption. rewrite <- app_assoc. reflexivity.
Qed.

(** C8.  The throttle is kept per instance, so the page does not space its
    pulses: on a capable phone with haptics enabled, one touch start on the
    page as [Home] mounts it makes sixteen touch-start vibration calls at the
    same millisecond, so that two touch-start pulses are 0 ms apart. *)
Theorem C8_one_touch_start_fires_a_pulse_per_instance :
  let world0 := mkWorld [] None in
  let log := vibrations (snd (Page.touchStart phone 1700000000000
                                (Some (TouchPosition.mkTouch 195 422))
                                (Page.mount phone world0) world0)) in
  log = repeat (1700000000000%Z, HapticFeedback.touch HapticFeedback.patterns) 16 /\
  ~ TouchPosition.spaced 100 (HapticFeedback.touch HapticFeedback.patterns) log.
Proof.
  intros world0 log.
  assert (E : log = repeat (1700000000000%Z,
                            HapticFeedback.touch HapticFeedback.patterns) 16)
    by (vm_compute; reflexivity).
  split; [exact E | ].
  intro H. rewrite E in H.
  specialize (H [] [] (repeat (1700000000000%Z,
                               HapticFeedback.touch HapticFeedback.patterns) 14)
                1700000000000%Z 1700000000000%Z eq_refl).
  lia.
Qed.

(** ** The touch handlers: decay after release *)

Section TouchRelease.

Import TouchPosition.

Example release_from_half :
  release 1 (vec2 0.5 0.5) = (vec2 (0.5 * 0.92) (0.5 * 0.92), true) /\
  snd (release 46 (vec2 0.5 0.5)) = true /\
  release 47 (vec2 0.5 0.5) = (vec2 0 0, false).
Proof. repeat split; vm_compute; reflexivity. Qed.

(** The two outcomes of the updater. *)
Lemma decay_cases (p : Vec2) :
  (Qabs (x p * 0.92) < 0.01 /\ Qabs (y p * 0.92) < 0.01 /\
   decay p = (vec2 0 0, true)) \/
  (~ (Qabs (x p * 0.92) < 0.01 /\ Qabs (y p * 0.92) < 0.01) /\
   decay p = (vec2 (x p * 0.92) (y p * 0.92), false)).
Proof.
  unfold decay.
  destruct (JS.ltb (JS.Math_abs (x p * 0.92)) 0.01) eqn:Ex;
    destruct (JS.ltb (JS.Math_abs (y p * 0.92)) 0.01) eqn:Ey; cbn [andb];
    try apply ltb_lt in Ex; try apply ltb_lt in Ey;
    try apply ltb_ge in Ex; try apply ltb_ge in Ey;
    rewrite (Math_abs_Qabs (x p * 0.92)) in Ex;
    rewrite (Math_abs_Qabs (y p * 0.92)) in Ey.
  - left. auto.
  - right. split; [ | reflexivity]. intros [_ H]. lra.
  - right. split; [ | reflexivity]. intros [H _]. lra.
  - right. split; [ | reflexivity]. intros [H _]. lra.
Qed.

Lemma Qabs_scaled (v : Q) : Qabs (v * 0.92) == Qabs v * 0.92.
Proof. rewrite Qabs_Qmult. reflexivity. Qed.

Lemma decay_magnitude2 (p : Vec2) :
  magnitude2 (fst (decay p)) <= magnitude2 p.
Proof.
  unfold magnitude2.
  destruct (decay_cases p) as [(_ & _ & E) | (_ & E)]; rewrite E; simpl; nra.
Qed.

Lemma decay_components (p : Vec2) :
  Qabs (x (fst (decay p))) <= Qabs (x p) /\
  Qabs (y (fst (decay p))) <= Qabs (y p).
Proof.
  pose proof (Qabs_nonneg (x p)). pose proof (Qabs_nonneg (y p)).
  destruct (decay_cases p) as [(_ & _ & E) | (_ & E)]; rewrite E; cbn [fst x y].
  - split; assumption.
  - rewrite !Qabs_scaled. split; lra.
Qed.

Lemma release_S (n : nat) (p : Vec2) :
  release (S n) p =
  if snd (release n p)
  then (fst (decay (fst (release n p))), negb (snd (decay (fst (release n p)))))
  else (fst (release n p), false).
Proof.
  simpl. destruct (release n p) as [p' [ | ]]; simpl; [ | reflexivity].
  destruct (decay p'). reflexivity.
Qed.

(** A cleared interval has left the position at the origin. *)
Lemma release_stopped (n : nat) (p : Vec2) :
  snd (release n p) = false -> fst (release n p) = vec2 0 0.
Proof.
  induction n as [ | n IH]; [discriminate | ].
  rewrite release_S. destruct (snd (release n p)); simpl.
  - destruct (decay_cases (fst (release n p))) as [(_ & _ & E) | (_ & E)];
      rewrite E; simpl; [reflexivity | discriminate].
  - intros _. now apply IH.
Qed.

(** A running interval has only multiplied. *)
Lemma release_running (n : nat) (p : Vec2) :
  snd (release n p) = true ->
  fst (release n p) = vec2 (scale n (x p)) (scale n (y p)).
Proof.
  induction n as [ | n IH]; [destruct p; reflexivity | ].
  rewrite release_S. destruct (snd (release n p)); simpl; [ | discriminate].
  destruct (decay_cases (fst (release n p))) as [(_ & _ & E) | (_ & E)];
    rewrite E; simpl; [discriminate | ].
  intros _. rewrite IH by reflexivity. reflexivity.
Qed.

Lemma scale_one_bound (n : nat) :
  0 <= scale n 1 /\ scale n 1 <= 1 /\
  scale n 1 * (1 + 0.08 * inject_Z (Z.of_nat n)) <= 1.
Proof.
  induction n as [ | n (H0 & H1 & H2)].
  - simpl. change (inject_Z 0) with 0. repeat split; lra.
  - rewrite Nat2Z.inj_succ. unfold Z.succ. rewrite inject_Z_plus.
    assert (0 <= inject_Z (Z.of_nat n)).
    { change 0 with (inject_Z 0). rewrite <- Zle_Qle. lia. }
    simpl scale. change (inject_Z 1) with 1. repeat split; nra.
Qed.

Lemma scale_linear (n : nat) (v : Q) : scale n v == v * scale n 1.
Proof.
  induction n as [ | n IH]; simpl.
  - ring.
  - rewrite IH. ring.
Qed.

(** The linear bound on the number of ticks after which a component is
    below the threshold. *)
Lemma scale_small (n : nat) (v : Q) :
  1250 * Qabs v < inject_Z (Z.of_nat n) -> Qabs (scale n v) < 0.01.
Proof.
  intro H. rewrite scale_linear, Qabs_Qmult.
  destruct (scale_one_bound n) as (H0 & H1 & H2).
  rewrite (Qabs_pos (scale n 1)) by assumption.
  pose proof (Qabs_nonneg v). nra.
Qed.

Lemma release_stops_when_small (n : nat) (p : Vec2) :
  Qabs (scale (S n) (x p)) < 0.01 -> Qabs (scale (S n) (y p)) < 0.01 ->
  snd (release (S n) p) = false.
Proof.
  intros Hx Hy. rewrite release_S.
  destruct (snd (release n p)) eqn:R; simpl; [ | reflexivity].
  rewrite (release_running n p R).
  destruct (decay_cases (vec2 (scale n (x p)) (scale n (y p))))
    as [(_ & _ & E) | (N & _)].
  - rewrite E. reflexivity.
  - exfalso. apply N. simpl. split; assumption.
Qed.

Lemma release_terminates (p : Vec2) :
  exists n, release n p = (vec2 0 0, false).
Proof.
  set (k := Z.to_nat (Qceiling (1250 * (Qabs (x p) + Qabs (y p))))).
  exists (S k).
  assert (Hk : 1250 * (Qabs (x p) + Qabs (y p)) < inject_Z (Z.of_nat (S k))).
  { apply Qle_lt_trans with (inject_Z (Qceiling (1250 * (Qabs (x p) + Qabs (y p))))).
    - apply Qle_ceiling.
    - rewrite <- Zlt_Qlt. unfold k. lia. }
  pose proof (Qabs_nonneg (x p)). pose proof (Qabs_nonneg (y p)).
  assert (R : snd (release (S k) p) = false).
  { apply release_stops_when_small; apply scale_small; lra. }
  pose proof (release_stopped _ _ R) as E.
  destruct (release (S k) p) as [p' r]. simpl in *. congruence.
Qed.

(** The abstract sequence is the one the hook goes through when exactly
    one release interval is running. *)
Lemma decayTick_release (n : nat) (s : state) :
  intervals s = 1%nat ->
  touchPosition (Nat.iter n decayTick s) = fst (release n (touchPosition s)) /\
  intervals (Nat.iter n decayTick s)
  = (if snd (release n (touchPosition s)) then 1%nat else 0%nat).
Proof.
  intro H. induction n as [ | n (IH1 & IH2)].
  - simpl. auto.
  - rewrite release_S. simpl Nat.iter. unfold decayTick at 1 3.
    rewrite IH2, IH1.
    destruct (snd (release n (touchPosition s))); simpl.
    + destruct (decay (fst (release n (touchPosition s)))) as [p' [ | ]]; simpl; auto.
    + rewrite IH1, IH2. auto.
Qed.

End TouchRelease.

(** C5.  From any position at the moment of release, a tick of the running
    release interval multiplies both components by exactly 0.92, unless both
    products are below 0.01 in absolute value, in which case, and only then,
    it sets the position to exactly (0, 0) and clears the interval.  Hence
    the ticks never increase the magnitude of the position (its square, and
    each component in absolute value); a tick that finds both components
    below 0.01 in absolute value sets the position to (0, 0) and clears the
    interval; a cleared interval leaves the position at (0, 0) for ever; and
    the interval is cleared after finitely many ticks. *)
Theorem C5_release_decay (p : Vec2) :
  (forall n,
      snd (TouchPosition.release n p) = true ->
      let before := fst (TouchPosition.release n p) in
      (~ (Qabs (x before * 0.92) < 0.01 /\ Qabs (y before * 0.92) < 0.01) ->
       TouchPosition.release (S n) p
       = (vec2 (x before * 0.92) (y before * 0.92), true)) /\
      (Qabs (x before * 0.92) < 0.01 -> Qabs (y before * 0.92) < 0.01 ->
       TouchPosition.release (S n) p = (vec2 0 0, false))) /\
  (forall n,
      let before := fst (TouchPosition.release n p) in
      let after := fst (TouchPosition.release (S n) p) in
      TouchPosition.magnitude2 after <= TouchPosition.magnitude2 before /\
      Qabs (x after) <= Qabs (x before) /\
      Qabs (y after) <= Qabs (y before)) /\
  (forall n,
      snd (TouchPosition.release n p) = true ->
      Qabs (x (fst (TouchPosition.release n p))) < 0.01 ->
      Qabs (y (fst (TouchPosition.release n p))) < 0.01 ->
      TouchPosition.release (S n) p = (vec2 0 0, false)) /\
  (forall n,
      snd (TouchPosition.release n p) = false ->
      TouchPosition.release (S n) p = (vec2 0 0, false)) /\
  exists n, TouchPosition.release n p = (vec2 0 0, false).
Proof.
  assert (Hsnap : forall n,
             snd (TouchPosition.release n p) = true ->
             Qabs (x (fst (TouchPosition.release n p)) * 0.92) < 0.01 ->
             Qabs (y (fst (TouchPosition.release n p)) * 0.92) < 0.01 ->
             TouchPosition.release (S n) p = (vec2 0 0, false)).
  { intros n R Hx Hy. rewrite release_S, R.
    destruct (decay_cases (fst (TouchPosition.release n p)))
      as [(_ & _ & E) | (N & _)].
    - rewrite E. reflexivity.
    - exfalso. apply N. split; assumption. }
  split; [ | split; [ | split; [ | split]]].
  - intros n R before. split.
    + intro N. rewrite release_S, R.
      destruct (decay_cases (fst (TouchPosition.release n p)))
        as [(Hx & Hy & _) | (_ & E)].
      * exfalso. apply N. split; assumption.
      * rewrite E. reflexivity.
    + intros Hx Hy. now apply Hsnap.
  - intros n before after. unfold after, before. rewrite release_S.
    destruct (snd (TouchPosition.release n p)); cbn [fst].
    + split; [apply decay_magnitude2 | apply decay_components].
    + split; [ | split]; apply Qle_refl.
  - intros n R Hx Hy. apply Hsnap; [exact R | | ]; rewrite Qabs_scaled.
    + pose proof (Qabs_nonneg (x (fst (TouchPosition.release n p)))). lra.
    + pose proof (Qabs_nonneg (y (fst (TouchPosition.release n p)))). lra.
  - intros n R. rewrite release_S, R, (release_stopped n p R). reflexivity.
  - apply release_terminates.
Qed.

Lemma C5_release_decay_witness :
  TouchPosition.release 1 (vec2 0.5 0.5) = (vec2 (0.5 * 0.92) (0.5 * 0.92), true) /\
  snd (TouchPosition.release 46 (vec2 0.5 0.5)) = true /\
  TouchPosition.release 47 (vec2 0.5 0.5) = (vec2 0 0, false) /\
  TouchPosition.release 1 (vec2 0.005 (-0.002)) = (vec2 0 0, false) /\
  TouchPosition.magnitude2 (fst (TouchPosition.release 3 (vec2 0.5 0.5)))
  <= TouchPosition.magnitude2 (fst (TouchPosition.release 2 (vec2 0.5 0.5))).
Proof.
  destruct (C5_release_decay (vec2 0.5 0.5)) as (Htick & Hmono & _).
  destruct (C5_release_decay (vec2 0.005 (-0.002))) as (_ & _ & Hsmall & _).
  split; [ | split; [ | split; [ | split]]].
  - apply (proj1 (Htick 0%nat eq_refl)). vm_compute. intros [H _]. discriminate H.
  - vm_compute. reflexivity.
  - assert (R : snd (TouchPosition.release 46 (vec2 0.5 0.5)) = true)
      by (vm_compute; reflexivity).
    apply (proj2 (Htick 46%nat R)); vm_compute; reflexivity.
  - apply (Hsmall 0%nat); reflexivity.
  - apply (Hmono 2%nat).
Defined.

(** ** The pointer fusion engine *)

Section InteractionPositionFacts.

Import InteractionPosition.

Lemma checkDevice_isMobile (w : Window) (s0 : state) :
  isMobile (checkDevice w s0) = mobileClass w.
Proof. reflexivity. Qed.

(** The multiplier after the device check, by the width of the window. *)
Lemma checkDevice_multiplier (w : Window) (s0 : state) :
  let width := Z.pos (innerWidth w) in
  ((width < 400)%Z -> getScreenSizeMultiplier (checkDevice w s0) = 0.7) /\
  ((400 <= width)%Z -> (width < 768)%Z ->
   getScreenSizeMultiplier (checkDevice w s0) = 0.85) /\
  ((768 <= width)%Z -> getScreenSizeMultiplier (checkDevice w s0) = 1).
Proof.
  intro width. unfold getScreenSizeMultiplier. simpl. fold width.
  destruct (Z.ltb_spec width 400); destruct (Z.ltb_spec width 768);
    repeat split; intros; try reflexivity; lia.
Qed.

(** A touch on a small phone that also reports a tilt. *)
Example touch_wins_over_tilt :
  let touch := TouchPosition.mkState (vec2 0.8 0) true (vec2 0.5 (-0.25)) 0 None 0 in
  let tilt := DeviceOrientation.mkState
                (DeviceOrientation.vec3 0.6 0.4 0) true
                (DeviceOrientation.vec3 0.3 0.2 0) true None in
  useInteractionPosition MousePosition.initial touch tilt (checkDevice phone initial)
  = vec2 (0.5 * 0.7) (-0.25 * 0.7).
Proof. reflexivity. Qed.

(** The mouse at the right edge, at mid height, of a 1280 by 800 window,
    at full quality: the offset is half the width. *)
Example mouse_at_the_right_edge :
  let c := mkCaptured HapticFeedback.initial (OptimizedAnimation.initial true) in
  let mouse := MousePosition.frame desktop
                 (MousePosition.handleMouseMove c
                    (MousePosition.mkMouseEvent 1280 400) MousePosition.initial) in
  let out := useInteractionPosition mouse TouchPosition.initial
               DeviceOrientation.initial (checkDevice desktop initial) in
  x out == 0.5 /\ y out == 0.
Proof. split; reflexivity. Qed.

End InteractionPositionFacts.

(** C1.  After the device check on any window, whatever the cells of the
    mouse, touch and orientation hooks: on a window of the mobile class
    (narrower than 768 or touch-capable) the vector returned is the
    smoothed touch position times the screen-size multiplier when a touch is
    active, whatever the orientation cells hold; otherwise, when orientation
    is supported, the smoothed orientation times 0.15 (x) or 0.1 (y) and the
    multiplier; otherwise exactly (0, 0).  The multiplier is 0.7 below 400
    pixels, 0.85 below 768 and 1 from 768.  The first render, before the
    device check, returns (0, 0).  On any other window the vector
    is the position of the mouse hook, which after a processed mouse move is
    the offset of the pointer from the centre of the window divided by the
    dimension of the window, times the animation quality. *)
Theorem C1_pointer_fusion
        (w : Window) (s0 : InteractionPosition.state)
        (mouse : MousePosition.state) (touch : TouchPosition.state)
        (tilt : DeviceOrientation.state) :
  let s := InteractionPosition.checkDevice w s0 in
  let out := InteractionPosition.useInteractionPosition mouse touch tilt s in
  let m := InteractionPosition.getScreenSizeMultiplier s in
  let width := Z.pos (innerWidth w) in
  (((width < 400)%Z -> m = 0.7) /\
   ((400 <= width)%Z -> (width < 768)%Z -> m = 0.85) /\
   ((768 <= width)%Z -> m = 1)) /\
  (mobileClass w = true ->
   (TouchPosition.isActive touch = true ->
    out = vec2 (x (TouchPosition.smoothedPosition touch) * m)
               (y (TouchPosition.smoothedPosition touch) * m)) /\
   (TouchPosition.isActive touch = false ->
    DeviceOrientation.isSupported tilt = true ->
    out = vec2 (DeviceOrientation.x (DeviceOrientation.smoothedOrientation tilt)
                * 0.15 * m)
               (DeviceOrientation.y (DeviceOrientation.smoothedOrientation tilt)
                * 0.1 * m)) /\
   (TouchPosition.isActive touch = false ->
    DeviceOrientation.isSupported tilt = false ->
    out = vec2 0 0)) /\
  InteractionPosition.useInteractionPosition MousePosition.initial
    TouchPosition.initial DeviceOrientation.initial InteractionPosition.initial
  = vec2 0 0 /\
  (mobileClass w = false ->
   out = MousePosition.mousePosition mouse /\
   forall c e,
     MousePosition.mousePosition
       (MousePosition.frame w
          (MousePosition.handleMouseMove c e
             (MousePosition.mkState (MousePosition.mousePosition mouse) None)))
     = vec2 (((MousePosition.clientX e - inject_Z (Z.pos (innerWidth w)) / 2)
              / inject_Z (Z.pos (innerWidth w)))
             * OptimizedAnimation.animationQuality (policy c))
            (((MousePosition.clientY e - inject_Z (Z.pos (innerHeight w)) / 2)
              / inject_Z (Z.pos (innerHeight w)))
             * OptimizedAnimation.animationQuality (policy c))).
Proof.
  intros s out m width. split; [apply checkDevice_multiplier | ].
  assert (Hout :
            out =
            if mobileClass w then
              if TouchPosition.isActive touch then
                vec2 (x (TouchPosition.smoothedPosition touch) * m)
                     (y (TouchPosition.smoothedPosition touch) * m)
              else if DeviceOrientation.isSupported tilt then
                vec2 (DeviceOrientation.x (DeviceOrientation.smoothedOrientation tilt)
                      * 0.15 * m)
                     (DeviceOrientation.y (DeviceOrientation.smoothedOrientation tilt)
                      * 0.1 * m)
              else vec2 0 0
            else MousePosition.mousePosition mouse)
    by reflexivity.
  rewrite Hout. split; [ | split; [reflexivity | ]]; intro Hm; rewrite Hm.
  - split; [ | split].
    + intros ->. reflexivity.
    + intros -> ->. reflexivity.
    + intros -> ->. reflexivity.
  - split; [reflexivity | ]. intros c e. reflexivity.
Qed.

Lemma C1_pointer_fusion_witness :
  let touch := TouchPosition.mkState (vec2 0.8 0) true (vec2 0.5 (-0.25)) 0 None 0 in
  let tilt := DeviceOrientation.mkState
                (DeviceOrientation.vec3 0.6 0.4 0) true
                (DeviceOrientation.vec3 0.3 0.2 0) true None in
  InteractionPosition.useInteractionPosition MousePosition.initial touch tilt
    (InteractionPosition.checkDevice phone InteractionPosition.initial)
  = vec2 (0.5 * 0.7) (-0.25 * 0.7).
Proof.
  intros touch tilt.
  destruct (C1_pointer_fusion phone InteractionPosition.initial
              MousePosition.initial touch tilt) as ((Hm & _) & Hmobile & _).
  destruct (Hmobile eq_refl) as (Ht & _).
  rewrite (Ht eq_refl), Hm by reflexivity. reflexivity.
Defined.

(** ** The transform compositor *)

Section ParallaxElementFacts.

Lemma maxMovement_maxDisplacement (sz : ParallaxElement.Size) (q : Q) :
  ParallaxElement.maxMovement sz q = ParallaxElement.maxDisplacement sz * q.
Proof. destruct sz; reflexivity. Qed.

Lemma maxMovement_nonneg (sz : ParallaxElement.Size) (q : Q) :
  0 <= q -> 0 <= ParallaxElement.maxMovement sz q.
Proof. intro H. destruct sz; unfold ParallaxElement.maxMovement; lra. Qed.

Lemma displacement_bounds (p : ParallaxElement.Props) (h : ParallaxElement.Hooks)
      (position k : Q) :
  0 <= ParallaxElement.animationQuality h ->
  - ParallaxElement.maxMovement (ParallaxElement.size p)
      (ParallaxElement.animationQuality h)
  <= ParallaxElement.displacement p h position k
  <= ParallaxElement.maxMovement (ParallaxElement.size p)
       (ParallaxElement.animationQuality h).
Proof.
  intro H. unfold ParallaxElement.displacement. apply clamp_bounds.
  now apply maxMovement_nonneg.
Qed.

(** A small element, a pointer far to the right, medium quality: the
    horizontal term is cut at 60 * 0.7. *)
Example small_element_clamped :
  let p := ParallaxElement.mkProps 0.35 0.18 ParallaxElement.small in
  let h := ParallaxElement.mkHooks 120 (vec2 50 (-50)) true 0.7 medium true in
  option_map ParallaxElement.translateX (ParallaxElement.render p h)
  = Some (60 * 0.7) /\
  option_map ParallaxElement.translateY (ParallaxElement.render p h)
  = Some (120 + - (60 * 0.7)).
Proof. split; reflexivity. Qed.

End ParallaxElementFacts.

(** C4.  Whenever the element is rendered with a transform, for every
    interaction vector, scroll offset, size class and quality factor that is
    not negative, the interaction term of each axis (the horizontal length,
    and the vertical length less the scroll offset) is at most the largest
    displacement of the size class (60, 45 or 30 for small, medium or large)
    times the quality factor, in absolute value. *)
Theorem C4_displacement_is_clamped
        (p : ParallaxElement.Props) (h : ParallaxElement.Hooks)
        (st : ParallaxElement.Style) :
  0 <= ParallaxElement.animationQuality h ->
  ParallaxElement.render p h = Some st ->
  Qabs (ParallaxElement.translateX st)
  <= ParallaxElement.maxDisplacement (ParallaxElement.size p)
     * ParallaxElement.animationQuality h /\
  Qabs (ParallaxElement.translateY st - ParallaxElement.scrollOffset h)
  <= ParallaxElement.maxDisplacement (ParallaxElement.size p)
     * ParallaxElement.animationQuality h.
Proof.
  intros Hq Hr. unfold ParallaxElement.render in Hr.
  destruct (negb (ParallaxElement.shouldAnimate h) || _); [discriminate | ].
  injection Hr as <-. cbn [ParallaxElement.translateX ParallaxElement.translateY].
  rewrite <- maxMovement_maxDisplacement.
  pose proof (displacement_bounds p h (x (ParallaxElement.interactionPosition h)) 40 Hq).
  pose proof (displacement_bounds p h (y (ParallaxElement.interactionPosition h)) 25 Hq).
  split; apply Qabs_Qle_condition; lra.
Qed.

Lemma C4_displacement_is_clamped_witness :
  let p := ParallaxElement.mkProps 0.35 0.18 ParallaxElement.small in
  let h := ParallaxElement.mkHooks 120 (vec2 50 (-50)) true 0.7 medium true in
  ParallaxElement.render p h
  = Some (ParallaxElement.mkStyle
            (ParallaxElement.displacement p h 50 40)
            (120 + ParallaxElement.displacement p h (-50) 25) 700 false) /\
  Qabs (ParallaxElement.displacement p h 50 40) <= 60 * 0.7 /\
  Qabs (120 + ParallaxElement.displacement p h (-50) 25 - 120) <= 60 * 0.7.
Proof.
  intros p h. split; [reflexivity | ].
  apply (C4_displacement_is_clamped p h
           (ParallaxElement.mkStyle
              (ParallaxElement.displacement p h 50 40)
              (120 + ParallaxElement.displacement p h (-50) 25) 700 false)).
  - vm_compute. discriminate.
  - reflexivity.
Defined.


(** * Further properties of the hooks and components *)

(** ** The touch position stays in range *)

Section TouchBounds.

Import TouchPosition.

Lemma clamp_range (v : Q) : - 0.8 <= clamp v /\ clamp v <= 0.8.
Proof.
  assert (H : 0 <= 0.8) by lra. exact (clamp_bounds 0.8 v H).
Qed.

(** Strictly inside the range, clamping returns its argument. *)
Lemma clamp_inside (m v : Q) :
  - m < v -> v < m -> JS.Math_max (- m) (JS.Math_min m v) = v.
Proof.
  intros H1 H2. unfold JS.Math_max, JS.Math_min.
  assert (E1 : Qle_bool m v = false) by (apply (geb_lt v m); assumption).
  rewrite E1.
  assert (E2 : Qle_bool (- m) v = true) by (apply Qle_bool_iff; lra).
  rewrite E2. reflexivity.
Qed.

Lemma newPosition_within (c : Captured) (w : Window) (t : Touch) :
  within 0.8 (newPosition c w t).
Proof. unfold within, newPosition. simpl. split; apply clamp_range. Qed.

Lemma decay_within (p : Vec2) : within 0.8 p -> within 0.8 (fst (decay p)).
Proof.
  unfold within. intros ((H1 & H2) & (H3 & H4)).
  destruct (decay_cases p) as [(_ & _ & E) | (_ & E)]; rewrite E; cbn [fst x y];
    repeat split; lra.
Qed.

Lemma step_touch_bounded (ev : event) (sw : state * World) :
  touch_bounded (fst sw) -> touch_bounded (fst (step ev sw)).
Proof.
  intros (Hp & Hs). destruct sw as [s world]. cbn [fst] in *.
  destruct ev as [c w now e | c e | w now | c now | | ]; cbn [step fst snd].
  - destruct (OptimizedAnimation.shouldAnimate (policy c)); [ | now split].
    unfold handleTouchStart. cbn [fst]. split; [ | exact Hs].
    destruct e as [t | ]; [apply newPosition_within | exact Hp].
  - destruct (OptimizedAnimation.shouldAnimate (policy c)); [ | now split].
    unfold handleTouchMove. cbn [fst].
    destruct (negb (isActive s) || _); [now split | ].
    destruct (pending s); now split.
  - unfold frame. destruct (pending s) as [[c [t | ]] | ]; [ | now split | now split].
    destruct ((300 <? now - lastVibrateTime s)%Z && farFromCentre (newPosition c w t));
      (split; [apply newPosition_within | exact Hs]).
  - destruct (OptimizedAnimation.shouldAnimate (policy c)); now split.
  - unfold decayTick. destruct (intervals s); [now split | ].
    pose proof (decay_within _ Hp) as Hd.
    destruct (decay (touchPosition s)) as [p' cleared]. now split.
  - unfold smoothingTick. split; [exact Hp | ].
    destruct Hp as ((H1 & H2) & (H3 & H4)). destruct Hs as ((H5 & H6) & (H7 & H8)).
    unfold within. cbn [smoothedPosition x y]. repeat split; lra.
Qed.

Lemma run_touch_bounded (evs : list event) (sw : state * World) :
  touch_bounded (fst sw) -> touch_bounded (fst (run evs sw)).
Proof.
  revert sw. induction evs as [ | ev evs IH]; intros sw H; simpl.
  - exact H.
  - apply IH. now apply step_touch_bounded.
Qed.

Lemma initial_touch_bounded : touch_bounded initial.
Proof. unfold touch_bounded, within. simpl. repeat split; lra. Qed.

End TouchBounds.

(** X1.  Whatever the sequence of touch events, animation frames, release
    ticks and smoothing ticks, and whatever the windows and qualities they
    come with, both components of the raw touch position and of the smoothed
    one stay between -0.8 and 0.8. *)
Theorem X1_touch_positions_in_range
        (evs : list TouchPosition.event) (world : World) :
  let s := fst (TouchPosition.run evs (TouchPosition.initial, world)) in
  within 0.8 (TouchPosition.touchPosition s) /\
  within 0.8 (TouchPosition.smoothedPosition s).
Proof.
  intro s. apply (run_touch_bounded evs (TouchPosition.initial, world)).
  apply initial_touch_bounded.
Qed.

(** X2.  On a window of the mobile class, while a touch is active, both
    components of the vector the fusion returns lie between -0.8 and 0.8,
    for every touch state a sequence of events can produce and every
    width of the window. *)
Theorem X2_fused_touch_vector_in_range
        (evs : list TouchPosition.event) (world : World) (w : Window)
        (s0 : InteractionPosition.state) (mouse : MousePosition.state)
        (tilt : DeviceOrientation.state) :
  let touch := fst (TouchPosition.run evs (TouchPosition.initial, world)) in
  mobileClass w = true ->
  TouchPosition.isActive touch = true ->
  within 0.8 (InteractionPosition.useInteractionPosition mouse touch tilt
                (InteractionPosition.checkDevice w s0)).
Proof.
  intros touch Hm Ha.
  destruct (run_touch_bounded evs (TouchPosition.initial, world) initial_touch_bounded)
    as (_ & ((H1 & H2) & (H3 & H4))).
  fold touch in H1, H2, H3, H4.
  unfold InteractionPosition.useInteractionPosition.
  rewrite checkDevice_isMobile, Hm, Ha.
  unfold InteractionPosition.getScreenSizeMultiplier, within.
  cbn [InteractionPosition.checkDevice InteractionPosition.screenSize
       InteractionPosition.width x y].
  destruct (Z.pos (innerWidth w) <? 400)%Z;
    [ | destruct (Z.pos (innerWidth w) <? 768)%Z]; repeat split; lra.
Qed.

Lemma X2_fused_touch_vector_in_range_witness :
  let c := mkCaptured HapticFeedback.initial (OptimizedAnimation.initial true) in
  let evs := [TouchPosition.TouchStart c phone 1000
                (Some (TouchPosition.mkTouch 390 0));
              TouchPosition.SmoothingTick; TouchPosition.SmoothingTick] in
  let touch := fst (TouchPosition.run evs (TouchPosition.initial, mkWorld [] None)) in
  TouchPosition.touchPosition touch = vec2 (TouchPosition.clamp ((390 - 390 / 2) / 390 * 1))
                                           (TouchPosition.clamp ((0 - 844 / 2) / 844 * 1)) /\
  within 0.8 (InteractionPosition.useInteractionPosition MousePosition.initial touch
                DeviceOrientation.initial
                (InteractionPosition.checkDevice phone InteractionPosition.initial)).
Proof.
  intros c evs touch. split; [reflexivity | ].
  apply (X2_fused_touch_vector_in_range evs (mkWorld [] None) phone
           InteractionPosition.initial MousePosition.initial DeviceOrientation.initial);
    reflexivity.
Defined.

(** ** A touch that starts during a release *)

Section TouchDuringRelease.

Import TouchPosition.

Lemma iter_decayTick_isActive (n : nat) (s : state) :
  isActive (Nat.iter n decayTick s) = isActive s.
Proof.
  induction n as [ | n IH]; [reflexivity | ].
  simpl. unfold decayTick at 1. destruct (intervals (Nat.iter n decayTick s)); [exact IH | ].
  destruct (decay _). exact IH.
Qed.

Example touch_dragged_to_the_centre :
  let c := mkCaptured HapticFeedback.initial (OptimizedAnimation.initial true) in
  let s := fst (run [TouchEnd c 1000;
                     TouchStart c phone 1100 (Some (mkTouch 390 422))]
                    (initial, mkWorld [] None)) in
  isActive (Nat.iter 48 decayTick s) = true /\
  touchPosition (Nat.iter 48 decayTick s) = vec2 0 0.
Proof. vm_compute. split; reflexivity. Qed.

End TouchDuringRelease.

(** X3.  A touch that starts while a release interval is running does not
    stop the interval: from an idle hook, after a touch end and a new touch
    start at any point, finitely many ticks of the interval with no touch
    move in between bring the raw touch position to exactly (0, 0) although
    the touch is still active. *)
Theorem X3_release_interval_survives_touch_start
        (c : Captured) (w : Window) (t1 t2 : Z) (t : TouchPosition.Touch)
        (s : TouchPosition.state) (world : World) :
  OptimizedAnimation.shouldAnimate (policy c) = true ->
  TouchPosition.intervals s = 0%nat ->
  let s' := fst (TouchPosition.run
                   [TouchPosition.TouchEnd c t1;
                    TouchPosition.TouchStart c w t2 (Some t)] (s, world)) in
  TouchPosition.touchPosition s' = TouchPosition.newPosition c w t /\
  TouchPosition.intervals s' = 1%nat /\
  exists n,
    TouchPosition.isActive (Nat.iter n TouchPosition.decayTick s') = true /\
    TouchPosition.touchPosition (Nat.iter n TouchPosition.decayTick s') = vec2 0 0 /\
    TouchPosition.intervals (Nat.iter n TouchPosition.decayTick s') = 0%nat.
Proof.
  intros Hanim Hidle s'.
  assert (Hs : s' = TouchPosition.mkState
                     (TouchPosition.newPosition c w t) true
                     (TouchPosition.smoothedPosition s)
                     (if (100 <? t2 - TouchPosition.lastVibrateTime s)%Z
                      then t2 else TouchPosition.lastVibrateTime s)
                     (TouchPosition.pending s) (S (TouchPosition.intervals s))).
  { unfold s'. cbn [TouchPosition.run fold_left TouchPosition.step]. rewrite Hanim.
    reflexivity. }
  assert (Hpos : TouchPosition.touchPosition s' = TouchPosition.newPosition c w t)
    by (rewrite Hs; reflexivity).
  assert (Hint : TouchPosition.intervals s' = 1%nat)
    by (rewrite Hs; cbn [TouchPosition.intervals]; now rewrite Hidle).
  assert (Hact : TouchPosition.isActive s' = true) by (rewrite Hs; reflexivity).
  split; [exact Hpos | split; [exact Hint | ]].
  destruct (release_terminates (TouchPosition.touchPosition s')) as [n Hn].
  exists n. destruct (decayTick_release n s' Hint) as (E1 & E2).
  rewrite iter_decayTick_isActive, E1, E2, Hn. auto.
Qed.

Lemma X3_release_interval_survives_touch_start_witness :
  let c := mkCaptured HapticFeedback.initial (OptimizedAnimation.initial true) in
  let s' := fst (TouchPosition.run
                   [TouchPosition.TouchEnd c 1000;
                    TouchPosition.TouchStart c phone 1100
                      (Some (TouchPosition.mkTouch 390 422))]
                   (TouchPosition.initial, mkWorld [] None)) in
  TouchPosition.intervals s' = 1%nat.
Proof.
  intros c s'.
  exact (proj1 (proj2 (X3_release_interval_survives_touch_start
                         c phone 1000 1100 (TouchPosition.mkTouch 390 422)
                         TouchPosition.initial (mkWorld [] None) eq_refl eq_refl))).
Defined.

(** ** The mouse hook *)

Section MousePositionFacts.

Import MousePosition.

Lemma handleMouseMove_pending (c : Captured) (e : MouseEvent) (s : state) :
  pending s <> None -> handleMouseMove c e s = s.
Proof.
  intro H. unfold handleMouseMove. destruct (pending s); [reflexivity | congruence].
Qed.

Lemma Window_width_pos (inner : positive) : 0 < inject_Z (Z.pos inner).
Proof. unfold Qlt. simpl. lia. Qed.

Lemma offsetFromCentre_ratio (client : Q) (inner : positive) :
  ((client - inject_Z (Z.pos inner) / 2) / inject_Z (Z.pos inner))
  * inject_Z (Z.pos inner)
  == client - inject_Z (Z.pos inner) / 2.
Proof.
  pose proof (Window_width_pos inner). field. lra.
Qed.

End MousePositionFacts.

(** X4.  Between two animation frames only the first mouse move counts:
    when no callback is pending, a move followed by any number of further
    moves and then a frame leaves the hook exactly where the first move
    followed by the frame leaves it. *)
Theorem X4_first_mouse_move_of_a_frame_wins
        (w : Window) (c : Captured) (e : MousePosition.MouseEvent)
        (later : list (Captured * MousePosition.MouseEvent))
        (s : MousePosition.state) :
  MousePosition.pending s = None ->
  MousePosition.frame w
    (fold_left (fun s ce => MousePosition.handleMouseMove (fst ce) (snd ce) s)
               later (MousePosition.handleMouseMove c e s))
  = MousePosition.mkState
      (vec2 (offsetFromCentre (MousePosition.clientX e) (innerWidth w)
               (OptimizedAnimation.animationQuality (policy c)))
            (offsetFromCentre (MousePosition.clientY e) (innerHeight w)
               (OptimizedAnimation.animationQuality (policy c))))
      None.
Proof.
  intro H.
  assert (E : fold_left (fun s ce => MousePosition.handleMouseMove (fst ce) (snd ce) s)
                        later (MousePosition.handleMouseMove c e s)
              = MousePosition.handleMouseMove c e s).
  { assert (P : MousePosition.pending (MousePosition.handleMouseMove c e s) <> None).
    { unfold MousePosition.handleMouseMove. rewrite H. discriminate. }
    revert P. generalize (MousePosition.handleMouseMove c e s) as s1.
    induction later as [ | [c' e'] later IH]; intros s1 P; simpl.
    - reflexivity.
    - rewrite handleMouseMove_pending by exact P. now apply IH. }
  rewrite E. unfold MousePosition.handleMouseMove. rewrite H. reflexivity.
Qed.

Lemma X4_first_mouse_move_of_a_frame_wins_witness :
  let c := mkCaptured HapticFeedback.initial (OptimizedAnimation.initial true) in
  MousePosition.mousePosition
    (MousePosition.frame desktop
       (fold_left (fun s ce => MousePosition.handleMouseMove (fst ce) (snd ce) s)
                  [(c, MousePosition.mkMouseEvent 0 0)]
                  (MousePosition.handleMouseMove c (MousePosition.mkMouseEvent 1280 400)
                     MousePosition.initial)))
  = vec2 (offsetFromCentre 1280 1280 1) (offsetFromCentre 400 800 1).
Proof.
  intro c.
  rewrite (X4_first_mouse_move_of_a_frame_wins desktop c
             (MousePosition.mkMouseEvent 1280 400)
             [(c, MousePosition.mkMouseEvent 0 0)] MousePosition.initial eq_refl).
  reflexivity.
Defined.

(** X5.  For a pointer inside the window and a quality that is not
    negative, the offset from the centre along an axis lies between minus
    and plus half the quality; it is zero at the centre and half the quality
    at the far edge. *)
Theorem X5_offset_from_centre_range (client : Q) (inner : positive) (q : Q) :
  0 <= q -> 0 <= client -> client <= inject_Z (Z.pos inner) ->
  (- (q / 2) <= offsetFromCentre client inner q /\
   offsetFromCentre client inner q <= q / 2) /\
  offsetFromCentre (inject_Z (Z.pos inner) / 2) inner q == 0 /\
  offsetFromCentre (inject_Z (Z.pos inner)) inner q == q / 2.
Proof.
  intros Hq H0 H1. pose proof (Window_width_pos inner) as HW.
  split; [ | split].
  - unfold offsetFromCentre.
    pose proof (offsetFromCentre_ratio client inner) as Hr.
    set (r := (client - inject_Z (Z.pos inner) / 2) / inject_Z (Z.pos inner)) in *.
    clearbody r. unfold Qdiv in *. change (/ 2) with (1 # 2) in *.
    assert (Hlo : - (1 # 2) <= r) by nra.
    assert (Hhi : r <= 1 # 2) by nra.
    split; nra.
  - unfold offsetFromCentre. field. lra.
  - unfold offsetFromCentre. field. lra.
Qed.

Lemma X5_offset_from_centre_range_witness :
  - (0.7 / 2) <= offsetFromCentre 320 1280 0.7 /\
  offsetFromCentre 320 1280 0.7 <= 0.7 / 2.
Proof.
  apply (X5_offset_from_centre_range 320 1280 0.7).
  - vm_compute. discriminate.
  - vm_compute. discriminate.
  - vm_compute. discriminate.
Defined.

(** ** The scroll-parallax source *)

(** X6.  When no callback is pending, any positive number of scroll events
    followed by an animation frame sets the offset to the scroll position
    read by that frame times the speed and the quality, and leaves no
    callback pending; a frame with no scroll event before it changes
    nothing; and a hook that does not animate returns 0 whatever its
    offset. *)
Theorem X6_scroll_events_coalesce
        (speed q pageYOffset : Q) (k : nat) (s : Parallax.state) :
  Parallax.pending s = None ->
  Parallax.frame pageYOffset (Nat.iter (S k) (Parallax.handleScroll speed q) s)
  = Parallax.mkState (pageYOffset * speed * q) None /\
  Parallax.frame pageYOffset s = s /\
  Parallax.useParallax false
    (Parallax.frame pageYOffset (Nat.iter (S k) (Parallax.handleScroll speed q) s)) = 0.
Proof.
  intro H.
  assert (E : Nat.iter (S k) (Parallax.handleScroll speed q) s
              = Parallax.mkState (Parallax.offset s) (Some (speed, q))).
  { induction k as [ | k IH].
    - simpl. unfold Parallax.handleScroll. now rewrite H.
    - change (Nat.iter (S (S k)) (Parallax.handleScroll speed q) s)
        with (Parallax.handleScroll speed q
                (Nat.iter (S k) (Parallax.handleScroll speed q) s)).
      rewrite IH. reflexivity. }
  rewrite E. split; [reflexivity | split; [ | reflexivity]].
  unfold Parallax.frame. now rewrite H.
Qed.

Lemma X6_scroll_events_coalesce_witness :
  Parallax.frame 400 (Nat.iter 3 (Parallax.handleScroll 0.5 0.7) Parallax.initial)
  = Parallax.mkState (400 * 0.5 * 0.7) None.
Proof.
  exact (proj1 (X6_scroll_events_coalesce 0.5 0.7 400 2 Parallax.initial eq_refl)).
Defined.

(** ** The orientation hook *)

Section DeviceOrientationFacts.

Import DeviceOrientation.

Lemma tilt_range (v : Q) : - (1) <= tilt v /\ tilt v <= 1.
Proof.
  unfold tilt. assert (H : 0 <= 20) by lra.
  pose proof (clamp_bounds 20 v H) as B.
  change (- (20)) with (-20) in B.
  set (t := JS.Math_max (-20) (JS.Math_min 20 v)) in *. clearbody t.
  unfold Qdiv. change (/ 20) with (1 # 20). lra.
Qed.

Example level_phone_held_at_45_degrees :
  let c := mkCaptured HapticFeedback.initial (OptimizedAnimation.initial true) in
  orientation
    (frame (handleOrientation c (mkOrientationEvent (Some 0) (Some 45) (Some 0)) initial))
  = vec3 (0 / 20 * 0.6 * 1) (0 / 20 * 0.4 * 1) (0 / 360 * 0.2 * 1).
Proof. reflexivity. Qed.

End DeviceOrientationFacts.

(** X7.  When no callback is pending, an orientation event followed by its
    animation frame leaves the orientation as it was if [alpha], [beta] or
    [gamma] is [null]; otherwise, for a quality that is not negative, the
    new x lies within 0.6 times the quality and the new y within 0.4 times
    the quality of zero, however far the device is tilted. *)
Theorem X7_orientation_frame
        (c : Captured) (e : DeviceOrientation.OrientationEvent)
        (s : DeviceOrientation.state) :
  DeviceOrientation.pending s = None ->
  0 <= OptimizedAnimation.animationQuality (policy c) ->
  let q := OptimizedAnimation.animationQuality (policy c) in
  let s' := DeviceOrientation.frame (DeviceOrientation.handleOrientation c e s) in
  DeviceOrientation.pending s' = None /\
  (DeviceOrientation.alpha e = None \/ DeviceOrientation.beta e = None \/
   DeviceOrientation.gamma e = None ->
   DeviceOrientation.orientation s' = DeviceOrientation.orientation s) /\
  (DeviceOrientation.alpha e <> None -> DeviceOrientation.beta e <> None ->
   DeviceOrientation.gamma e <> None ->
   (- (0.6 * q) <= DeviceOrientation.x (DeviceOrientation.orientation s') /\
    DeviceOrientation.x (DeviceOrientation.orientation s') <= 0.6 * q) /\
   (- (0.4 * q) <= DeviceOrientation.y (DeviceOrientation.orientation s') /\
    DeviceOrientation.y (DeviceOrientation.orientation s') <= 0.4 * q)).
Proof.
  intros Hp Hq q s'. unfold s', DeviceOrientation.handleOrientation. rewrite Hp.
  unfold DeviceOrientation.frame.
  cbn [DeviceOrientation.pending DeviceOrientation.orientation].
  split; [reflexivity | ].
  destruct e as [[a | ] [b | ] [g | ]];
    cbn [DeviceOrientation.alpha DeviceOrientation.beta DeviceOrientation.gamma
         DeviceOrientation.orientation];
    (split; [intros [H | [H | H]]; try discriminate H; reflexivity | ]);
    intros Ha Hb Hg; try congruence.
  cbn [DeviceOrientation.x DeviceOrientation.y]. fold q.
  destruct (tilt_range g) as (G1 & G2). destruct (tilt_range (b - 45)) as (B1 & B2).
  set (tg := DeviceOrientation.tilt g) in *. clearbody tg.
  set (tb := DeviceOrientation.tilt (b - 45)) in *. clearbody tb.
  clear s'. subst q.
  set (q := OptimizedAnimation.animationQuality (policy c)) in *. clearbody q.
  repeat split; nra.
Qed.

Lemma X7_orientation_frame_witness :
  let c := mkCaptured HapticFeedback.initial (OptimizedAnimation.initial true) in
  let e := DeviceOrientation.mkOrientationEvent (Some 10) (Some 170) (Some (-90)) in
  let s' := DeviceOrientation.frame
              (DeviceOrientation.handleOrientation c e DeviceOrientation.initial) in
  DeviceOrientation.x (DeviceOrientation.orientation s') == - 0.6 /\
  DeviceOrientation.y (DeviceOrientation.orientation s') == 0.4 /\
  DeviceOrientation.pending s' = None.
Proof.
  intros c e s'. split; [reflexivity | split; [reflexivity | ]].
  assert (Hq : 0 <= OptimizedAnimation.animationQuality (policy c))
    by (vm_compute; discriminate).
  exact (proj1 (X7_orientation_frame c e DeviceOrientation.initial eq_refl Hq)).
Defined.

(** X8.  If the platform refuses the orientation permission, throws, or has
    no orientation events, the hook stays unsupported, so that on a window of
    the mobile class without an active touch the fusion returns exactly
    (0, 0); a refusal or a missing capability also makes no vibration
    call. *)
Theorem X8_no_permission_no_tilt
        (c : Captured) (p : DeviceOrientation.Platform) (now : Z)
        (tilt : DeviceOrientation.state) (world : World) (w : Window)
        (s0 : InteractionPosition.state) (mouse : MousePosition.state)
        (touch : TouchPosition.state) :
  p <> DeviceOrientation.Granted -> p <> DeviceOrientation.NoPrompt ->
  DeviceOrientation.isSupported tilt = false ->
  mobileClass w = true ->
  TouchPosition.isActive touch = false ->
  let r := DeviceOrientation.requestPermission c p now (tilt, world) in
  DeviceOrientation.isSupported (fst r) = false /\
  InteractionPosition.useInteractionPosition mouse touch (fst r)
    (InteractionPosition.checkDevice w s0) = vec2 0 0 /\
  (p <> DeviceOrientation.Throws -> snd r = world).
Proof.
  intros H1 H2 Hs Hm Ht r.
  assert (E : fst r = tilt) by (unfold r; destruct p; simpl; congruence).
  rewrite E. split; [exact Hs | split].
  - unfold InteractionPosition.useInteractionPosition.
    rewrite checkDevice_isMobile, Hm, Ht, Hs. reflexivity.
  - intro H3. unfold r. destruct p; simpl; congruence.
Qed.

Lemma X8_no_permission_no_tilt_witness :
  let c := mkCaptured (HapticFeedback.mkState true true true)
                      (OptimizedAnimation.initial true) in
  let r := DeviceOrientation.requestPermission c DeviceOrientation.Refused 1000
             (DeviceOrientation.initial, mkWorld [] None) in
  InteractionPosition.useInteractionPosition MousePosition.initial
    TouchPosition.initial (fst r)
    (InteractionPosition.checkDevice phone InteractionPosition.initial) = vec2 0 0 /\
  snd r = mkWorld [] None.
Proof.
  intros c r.
  destruct (X8_no_permission_no_tilt c DeviceOrientation.Refused 1000
              DeviceOrientation.initial (mkWorld [] None) phone
              InteractionPosition.initial MousePosition.initial TouchPosition.initial)
    as (_ & H & Hw); try discriminate; try reflexivity.
  split; [exact H | apply Hw; discriminate].
Defined.

(** ** The haptic preference *)

Section HapticPreferenceFacts.

Import HapticFeedback.

Lemma toggleTimes_S (n : nat) (now : Z) (sw : state * World) :
  toggleTimes (S n) now sw
  = toggleHaptics (fst (toggleTimes n now sw)) now (snd (toggleTimes n now sw)).
Proof. simpl. destruct (toggleTimes n now sw). reflexivity. Qed.

Lemma toString_true_iff (b : bool) : String.eqb (toString b) "true" = b.
Proof. destruct b; reflexivity. Qed.

End HapticPreferenceFacts.

(** X9.  The preference survives a reload: after [toggleHaptics], a hook
    that mounts on any window and reads the stored item starts with the
    preference the toggle has just set, which is the opposite of the one
    before. *)
Theorem X9_toggled_preference_is_restored_on_mount
        (s s0 : HapticFeedback.state) (now : Z) (world : World) (w : Window) :
  let r := HapticFeedback.toggleHaptics s now world in
  HapticFeedback.isEnabled (HapticFeedback.mount w (snd r) s0)
  = HapticFeedback.isEnabled (fst r) /\
  HapticFeedback.isEnabled (fst r) = negb (HapticFeedback.isEnabled s).
Proof.
  intro r. destruct (toggleHaptics_flips s now world) as (Hf & Hp). fold r in Hf, Hp.
  split; [ | exact Hf].
  unfold HapticFeedback.mount. rewrite Hp, Hf.
  cbn [HapticFeedback.isEnabled]. apply toString_true_iff.
Qed.

(** X10.  However often the toggle is pressed, no vibration call is ever
    made by it; the preference is the original one after an even number of
    presses and the opposite one after an odd number; and after at least one
    press the stored item spells the current preference. *)
Theorem X10_toggling_any_number_of_times
        (n : nat) (now : Z) (s : HapticFeedback.state) (world : World) :
  let r := toggleTimes n now (s, world) in
  vibrations (snd r) = vibrations world /\
  HapticFeedback.isEnabled (fst r)
  = (if Nat.even n then HapticFeedback.isEnabled s
     else negb (HapticFeedback.isEnabled s)) /\
  HapticFeedback.isSupported (fst r) = HapticFeedback.isSupported s /\
  HapticFeedback.isMobile (fst r) = HapticFeedback.isMobile s /\
  (n <> 0%nat ->
   haptic_feedback (snd r)
   = Some (HapticFeedback.toString (HapticFeedback.isEnabled (fst r)))).
Proof.
  induction n as [ | n (Hv & He & Hs & Hm & _)].
  - simpl. repeat split; try reflexivity. congruence.
  - intro r. unfold r. rewrite toggleTimes_S.
    set (r' := toggleTimes n now (s, world)) in *.
    destruct (toggleHaptics_flips (fst r') now (snd r')) as (Hf & Hp).
    split; [ | split; [ | split; [ | split]]].
    + rewrite toggleHaptics_silent. exact Hv.
    + rewrite Hf, He, Nat.even_succ, <- Nat.negb_even.
      destruct (Nat.even n), (HapticFeedback.isEnabled s); reflexivity.
    + exact Hs.
    + exact Hm.
    + intros _. rewrite Hp, Hf. reflexivity.
Qed.

(** ** The sampler: stopping, and the size of the samples *)

Section SamplerFacts.

Import PerformanceMonitor.

Lemma Math_round_range (v : Q) (n : Z) :
  0 <= v -> v <= inject_Z n -> (0 <= JS.Math_round v <= n)%Z.
Proof.
  intros H0 Hn. unfold JS.Math_round. split.
  - change 0%Z with (Qfloor 0). apply Qfloor_resp_le. lra.
  - assert (E : Qfloor (inject_Z n + (1 # 2)) = n).
    { unfold Qfloor, Qplus, inject_Z. simpl.
      symmetry. apply (Z.div_unique _ 2 n 1); lia. }
    apply Z.le_trans with (Qfloor (inject_Z n + (1 # 2))).
    + apply Qfloor_resp_le. lra.
    + rewrite E. apply Z.le_refl.
Qed.

Lemma measureFPS_sample (now : Q) (s : state) (w : Z) :
  (0 <= frameCount s)%Z ->
  snd (measureFPS now s) = Some w ->
  (0 <= w <= frameCount s + 1)%Z.
Proof.
  intros Hc. unfold measureFPS.
  destruct (JS.geb (now - lastTime s) 1000) eqn:E; [ | discriminate].
  apply geb_le in E. cbn [snd]. intro H. injection H as <-.
  assert (Hf : 0 <= inject_Z (frameCount s + 1)).
  { change 0 with (inject_Z 0). rewrite <- Zle_Qle. lia. }
  apply Math_round_range.
  - apply Qle_shift_div_l; [lra | ]. nra.
  - apply Qle_shift_div_r; [lra | ]. nra.
Qed.

Lemma measureFPS_frameCount (now : Q) (s : state) :
  (0 <= frameCount s)%Z ->
  (0 <= frameCount (fst (measureFPS now s)) <= frameCount s + 1)%Z.
Proof.
  intro H. unfold measureFPS.
  destruct (JS.geb (now - lastTime s) 1000); cbn [fst frameCount]; lia.
Qed.

Lemma step_frameCount (e : event) (s : state) :
  (0 <= frameCount s)%Z ->
  (0 <= frameCount (fst (step e s)) <= frameCount s + 1)%Z /\
  forall w, snd (step e s) = Some w -> (0 <= w <= frameCount s + 1)%Z.
Proof.
  intro H. destruct e as [now | | | ]; cbn [step].
  - destruct (animationFrame s).
    + split; [now apply measureFPS_frameCount | ].
      intros w. now apply measureFPS_sample.
    + cbn [fst snd]. split; [lia | discriminate].
  - cbn [fst snd startMonitoring frameCount]. split; [lia | discriminate].
  - cbn [fst snd stopMonitoring frameCount]. split; [lia | discriminate].
  - cbn [fst snd render frameCount]. split; [lia | discriminate].
Qed.

Lemma run_samples_bounded (es : list event) (s : state) (k : Z) :
  (0 <= frameCount s <= k)%Z ->
  Forall (fun w => (0 <= w <= k + Z.of_nat (length es))%Z) (snd (run es s)).
Proof.
  revert s k. induction es as [ | e es IH]; intros s k H.
  - constructor.
  - rewrite run_cons. cbn [snd].
    destruct (step_frameCount e s (proj1 H)) as (Hc & Hw).
    assert (IH' : Forall (fun w => (0 <= w <= k + Z.of_nat (length (e :: es)))%Z)
                         (snd (run es (fst (step e s))))).
    { specialize (IH (fst (step e s)) (k + 1)%Z).
      replace (k + Z.of_nat (length (e :: es)))%Z
        with (k + 1 + Z.of_nat (length es))%Z by (simpl length; lia).
      apply IH. lia. }
    destruct (snd (step e s)) as [w | ]; [ | exact IH'].
    constructor; [ | exact IH'].
    specialize (Hw w eq_refl). simpl length. lia.
Qed.

Lemma last_cons_default {A : Type} (l : list A) (a d : A) :
  last (a :: l) d = last l a.
Proof.
  revert a d. induction l as [ | b l IH]; intros a d; [reflexivity | ].
  change (last (a :: b :: l) d) with (last (b :: l) d).
  rewrite (IH b d), (IH b a). reflexivity.
Qed.

Lemma run_fps_last (es : list event) (s : state) :
  fps (fst (run es s)) = last (snd (run es s)) (fps s).
Proof.
  revert s. induction es as [ | e es IH]; intro s; [reflexivity | ].
  rewrite run_cons. cbn [fst snd]. rewrite IH.
  assert (Hs : match snd (step e s) with
               | Some w => fps (fst (step e s)) = w
               | None => fps (fst (step e s)) = fps s
               end).
  { destruct e as [now | | | ]; cbn [step]; try reflexivity.
    destruct (animationFrame s); [ | reflexivity].
    unfold measureFPS. destruct (JS.geb (now - lastTime s) 1000); reflexivity. }
  destruct (snd (step e s)) as [w | ].
  - rewrite Hs. symmetry. apply last_cons_default.
  - rewrite Hs. reflexivity.
Qed.

End SamplerFacts.

(** X11.  After [stopMonitoring], animation frames neither produce samples
    nor change any cell of the sampler, however many there are and whatever
    their times. *)
Theorem X11_frames_after_stop_are_ignored
        (times : list Q) (s : PerformanceMonitor.state) :
  PerformanceMonitor.run
    (PerformanceMonitor.Stop :: map PerformanceMonitor.Frame times) s
  = (PerformanceMonitor.stopMonitoring s, []).
Proof.
  rewrite run_cons. cbn [PerformanceMonitor.step fst snd].
  assert (H : PerformanceMonitor.animationFrame (PerformanceMonitor.stopMonitoring s)
              = false) by reflexivity.
  revert H. generalize (PerformanceMonitor.stopMonitoring s) as s1.
  induction times as [ | t times IH]; intros s1 H.
  - reflexivity.
  - cbn [map]. rewrite run_cons. cbn [PerformanceMonitor.step]. rewrite H.
    cbn [fst snd]. apply (IH s1 H).
Qed.

(** X12.  In any run of the sampler from its first render, every sample is
    at least 0 and at most the number of events of the run: a window lasts
    at least a second, so the rounded rate never exceeds the number of
    frames seen. *)
Theorem X12_samples_are_bounded_by_the_frames_seen
        (t0 : Q) (es : list PerformanceMonitor.event) :
  Forall (fun w => (0 <= w <= Z.of_nat (length es))%Z)
         (snd (PerformanceMonitor.run es (PerformanceMonitor.initial t0))).
Proof.
  apply (run_samples_bounded es (PerformanceMonitor.initial t0) 0). simpl. lia.
Qed.

(** X13.  In any run of the sampler from its first render, the [fps] cell is
    the most recent sample, or 60 when no window has been completed. *)
Theorem X13_fps_is_the_latest_sample
        (t0 : Q) (es : list PerformanceMonitor.event) :
  PerformanceMonitor.fps (fst (PerformanceMonitor.run es (PerformanceMonitor.initial t0)))
  = last (snd (PerformanceMonitor.run es (PerformanceMonitor.initial t0))) 60%Z.
Proof. apply run_fps_last. Qed.

(** ** The rotating keywords *)

(** X14.  After any number of ticks of the rotation timer the index is the
    number of ticks modulo 7, so it is below 7 and [keywords[currentKeyword]]
    is never [undefined]; seven ticks bring every index back to itself. *)
Theorem X14_keyword_index_stays_in_range (n : nat) :
  let k := Nat.iter n Home.nextKeyword 0%nat in
  k = (n mod 7)%nat /\
  (k < 7)%nat /\
  Home.shownKeyword k <> None /\
  Nat.iter 7 Home.nextKeyword k = k.
Proof.
  intro k.
  assert (Hk : k = (n mod 7)%nat).
  { unfold k. induction n as [ | n IH]; [reflexivity | ].
    simpl Nat.iter. rewrite IH. unfold Home.nextKeyword.
    change (length Home.keywords) with 7%nat.
    rewrite Nat.Div0.add_mod_idemp_l.
    f_equal. lia. }
  assert (Hlt : (k < 7)%nat) by (rewrite Hk; apply Nat.mod_upper_bound; discriminate).
  split; [exact Hk | split; [exact Hlt | split]].
  - unfold Home.shownKeyword. apply nth_error_Some. exact Hlt.
  - clear Hk. do 7 (destruct k as [ | k]; [reflexivity | ]). lia.
Qed.

(** ** The layers of the hero section *)

Example hero_layers_at_the_corner :
  map (fun l => HeroParallax.translateX l (vec2 0.8 (-0.8))) HeroParallax.layers
  = [0.8 * 18; 0.8 * 20; 0.8 * 15; 0.8 * 8; 0.8 * 12].
Proof. reflexivity. Qed.

(** X15.  For an interaction vector with both components between -0.8 and
    0.8, none of the five layers of the hero section is cut by its limits:
    the horizontal length is the x component times the factor of the layer,
    and the vertical one the scroll offset plus the y component times the
    factor. *)
Theorem X15_hero_limits_are_never_reached
        (l : HeroParallax.Layer) (scrollOffset : Q) (p : Vec2) :
  In l HeroParallax.layers ->
  within 0.8 p ->
  HeroParallax.translateX l p = x p * HeroParallax.factorX l /\
  HeroParallax.translateY l scrollOffset p
  = scrollOffset + y p * HeroParallax.factorY l.
Proof.
  intros Hl ((H1 & H2) & (H3 & H4)).
  unfold HeroParallax.translateX, HeroParallax.translateY.
  simpl in Hl.
  destruct Hl as [<- | [<- | [<- | [<- | [<- | []]]]]];
    cbn [HeroParallax.limitX HeroParallax.limitY HeroParallax.factorX
         HeroParallax.factorY];
    rewrite !clamp_inside by lra; split; reflexivity.
Qed.

Lemma X15_hero_limits_are_never_reached_witness :
  HeroParallax.translateX (HeroParallax.mkLayer 0.5 18 20 12 15) (vec2 0.8 (-0.8))
  = 0.8 * 12 /\
  HeroParallax.translateY (HeroParallax.mkLayer 0.5 18 20 12 15) 100 (vec2 0.8 (-0.8))
  = 100 + -0.8 * 18.
Proof.
  apply (X15_hero_limits_are_never_reached
           (HeroParallax.mkLayer 0.5 18 20 12 15) 100 (vec2 0.8 (-0.8))).
  - simpl. tauto.
  - unfold within. simpl. repeat split; vm_compute; discriminate.
Defined.

(** ** Revealed sections *)

Section SectionFacts.

Import ScrollAnimation.

Lemma step_not_observing (e : event) (s : state) :
  refCurrent s = false -> observing s = false ->
  refCurrent (step e s) = false /\ observing (step e s) = false /\
  isVisible (step e s) = isVisible s.
Proof.
  intros Hr Ho. destruct e as [ | b | l | ]; cbn [step].
  - unfold effect. cbn. auto.
  - rewrite Ho. auto.
  - unfold cleanup. rewrite Hr. unfold effect. cbn. auto.
  - unfold cleanup. rewrite Hr. auto.
Qed.

Lemma step_without_intersection (e : event) (s : state) :
  e <> Intersection true -> isVisible (step e s) = isVisible s.
Proof.
  intro H. destruct e as [ | [ | ] | l | ]; cbn [step]; try reflexivity.
  - congruence.
  - destruct (observing s); reflexivity.
  - unfold cleanup. destruct (refCurrent s); reflexivity.
  - unfold cleanup. destruct (refCurrent s); reflexivity.
Qed.

End SectionFacts.

(** X16.  An element is never reported visible unless an intersecting entry
    has been delivered: a run with no such event leaves it hidden, and so
    does every run for a hook whose [ref] holds no element. *)
Theorem X16_no_reveal_without_intersection
        (es : list ScrollAnimation.event) (refCurrent : bool) :
  (~ In (ScrollAnimation.Intersection true) es ->
   ScrollAnimation.isVisible
     (ScrollAnimation.run es (ScrollAnimation.initial refCurrent)) = false) /\
  ScrollAnimation.isVisible
    (ScrollAnimation.run es (ScrollAnimation.initial false)) = false.
Proof.
  split.
  - generalize (eq_refl : ScrollAnimation.isVisible
                            (ScrollAnimation.initial refCurrent) = false).
    generalize (ScrollAnimation.initial refCurrent) as s.
    induction es as [ | e es IH]; intros s Hs Hn; [exact Hs | ].
    simpl. apply IH.
    + rewrite step_without_intersection; [exact Hs | ].
      intro E. apply Hn. left. exact E.
    + intro Hin. apply Hn. right. exact Hin.
  - assert (H : ScrollAnimation.refCurrent (ScrollAnimation.initial false) = false /\
                ScrollAnimation.observing (ScrollAnimation.initial false) = false /\
                ScrollAnimation.isVisible (ScrollAnimation.initial false) = false)
      by (repeat split).
    revert H. generalize (ScrollAnimation.initial false) as s.
    induction es as [ | e es IH]; intros s (Hr & Ho & Hv); [exact Hv | ].
    simpl. apply IH.
    destruct (step_not_observing e s Hr Ho) as (Hr' & Ho' & Hv').
    repeat split; congruence.
Qed.

Lemma X16_no_reveal_without_intersection_witness :
  ScrollAnimation.isVisible
    (ScrollAnimation.run
       [ScrollAnimation.Mount; ScrollAnimation.Intersection false;
        ScrollAnimation.LevelChanged low; ScrollAnimation.Intersection false]
       (ScrollAnimation.initial true)) = false.
Proof.
  apply (proj1 (X16_no_reveal_without_intersection
                  [ScrollAnimation.Mount; ScrollAnimation.Intersection false;
                   ScrollAnimation.LevelChanged low; ScrollAnimation.Intersection false]
                  true)).
  simpl. intros [H | [H | [H | [H | []]]]]; discriminate H.
Defined.

(** X17.  A section shows its content only while it animates and has been
    revealed.  Under the policy of the low level on a window at most 768
    wide it keeps the hidden class whatever is scrolled into view; under a
    policy that animates, once revealed it keeps the animation class through
    every later event. *)
Theorem X17_section_class
        (animation : string) (enabled : bool) (innerWidth : Z)
        (l : PerformanceLevel)
        (es1 es2 : list ScrollAnimation.event) (refCurrent : bool) :
  ((innerWidth <= 768)%Z ->
   AnimatedSection.className animation
     (OptimizedAnimation.shouldAnimate (OptimizedAnimation.effect low enabled innerWidth))
     (ScrollAnimation.isVisible
        (ScrollAnimation.run es1 (ScrollAnimation.initial refCurrent)))
   = "opacity-0 translate-y-8"%string) /\
  (OptimizedAnimation.shouldAnimate (OptimizedAnimation.effect l enabled innerWidth)
   = true ->
   ScrollAnimation.isVisible
     (ScrollAnimation.run es1 (ScrollAnimation.initial refCurrent)) = true ->
   AnimatedSection.className animation
     (OptimizedAnimation.shouldAnimate (OptimizedAnimation.effect l enabled innerWidth))
     (ScrollAnimation.isVisible
        (ScrollAnimation.run (es1 ++ es2) (ScrollAnimation.initial refCurrent)))
   = ("animate-" ++ animation)%string).
Proof.
  split.
  - intro H. apply Z.ltb_ge in H. cbn [OptimizedAnimation.effect
                                        OptimizedAnimation.shouldAnimate].
    rewrite H, andb_false_r. reflexivity.
  - intros Ha Hv. rewrite Ha, run_app, run_keeps_visible by exact Hv. reflexivity.
Qed.

Lemma X17_section_class_witness :
  AnimatedSection.className "fade-in-up"
    (OptimizedAnimation.shouldAnimate (OptimizedAnimation.effect low true 390))
    (ScrollAnimation.isVisible
       (ScrollAnimation.run [ScrollAnimation.Mount; ScrollAnimation.Intersection true]
          (ScrollAnimation.initial true)))
  = "opacity-0 translate-y-8"%string /\
  AnimatedSection.className "fade-in-up"
    (OptimizedAnimation.shouldAnimate (OptimizedAnimation.effect medium true 390))
    (ScrollAnimation.isVisible
       (ScrollAnimation.run
          ([ScrollAnimation.Mount; ScrollAnimation.Intersection true]
             ++ [ScrollAnimation.Intersection false])
          (ScrollAnimation.initial true)))
  = "animate-fade-in-up"%string.
Proof.
  split.
  - apply (proj1 (X17_section_class "fade-in-up" true 390 low
                    [ScrollAnimation.Mount; ScrollAnimation.Intersection true] []
                    true)).
    lia.
  - apply (proj2 (X17_section_class "fade-in-up" true 390 medium
                    [ScrollAnimation.Mount; ScrollAnimation.Intersection true]
                    [ScrollAnimation.Intersection false] true)); reflexivity.
Defined.

(** ** The transform at rest and inside its range *)

Section DisplacementFacts.

Lemma clamp_zero (m v : Q) :
  0 <= m -> v == 0 -> JS.Math_max (- m) (JS.Math_min m v) == 0.
Proof.
  intros Hm Hv. unfold JS.Math_max, JS.Math_min.
  destruct (Qle_bool m v) eqn:E1.
  - apply Qle_bool_iff in E1.
    destruct (Qle_bool (- m) m); lra.
  - destruct (Qle_bool (- m) v) eqn:E2; [exact Hv | ].
    apply (geb_lt v (- m)) in E2. lra.
Qed.

End DisplacementFacts.

(** X18.  When an element is rendered with a transform, at a quality that
    is not negative: a zero component of the interaction vector gives a zero
    interaction term, so that the element sits at its scroll offset; and an
    interaction term strictly inside the range of the size class is passed
    on unchanged. *)
Theorem X18_transform_at_rest_and_in_range
        (p : ParallaxElement.Props) (h : ParallaxElement.Hooks)
        (st : ParallaxElement.Style) :
  0 <= ParallaxElement.animationQuality h ->
  ParallaxElement.render p h = Some st ->
  let adjusted := ParallaxElement.interactionSpeed p
                  * ParallaxElement.getSizeMultiplier (ParallaxElement.size p)
                  * ParallaxElement.animationQuality h in
  let m := ParallaxElement.maxMovement (ParallaxElement.size p)
             (ParallaxElement.animationQuality h) in
  (x (ParallaxElement.interactionPosition h) == 0 ->
   ParallaxElement.translateX st == 0) /\
  (y (ParallaxElement.interactionPosition h) == 0 ->
   ParallaxElement.translateY st == ParallaxElement.scrollOffset h) /\
  (- m < x (ParallaxElement.interactionPosition h) * adjusted * 40 ->
   x (ParallaxElement.interactionPosition h) * adjusted * 40 < m ->
   ParallaxElement.translateX st
   = x (ParallaxElement.interactionPosition h) * adjusted * 40) /\
  (- m < y (ParallaxElement.interactionPosition h) * adjusted * 25 ->
   y (ParallaxElement.interactionPosition h) * adjusted * 25 < m ->
   ParallaxElement.translateY st
   = ParallaxElement.scrollOffset h
     + y (ParallaxElement.interactionPosition h) * adjusted * 25).
Proof.
  intros Hq Hr adjusted m. unfold ParallaxElement.render in Hr.
  destruct (negb (ParallaxElement.shouldAnimate h) || _); [discriminate | ].
  injection Hr as <-. cbn [ParallaxElement.translateX ParallaxElement.translateY].
  unfold ParallaxElement.displacement. fold adjusted. fold m.
  pose proof (maxMovement_nonneg (ParallaxElement.size p) _ Hq) as Hm. fold m in Hm.
  split; [ | split; [ | split]].
  - intro H0. apply clamp_zero; [exact Hm | ]. rewrite H0. ring.
  - intro H0.
    rewrite (clamp_zero m (y (ParallaxElement.interactionPosition h) * adjusted * 25));
      [ring | exact Hm | rewrite H0; ring].
  - intros H1 H2. now apply clamp_inside.
  - intros H1 H2. now rewrite clamp_inside.
Qed.

Lemma X18_transform_at_rest_and_in_range_witness :
  let p := ParallaxElement.mkProps 0.35 0.18 ParallaxElement.small in
  let h := ParallaxElement.mkHooks 120 (vec2 0.5 0) true 0.7 medium true in
  option_map ParallaxElement.translateX (ParallaxElement.render p h)
  = Some (0.5 * (0.18 * 1.2 * 0.7) * 40) /\
  ParallaxElement.translateY
    (ParallaxElement.mkStyle (ParallaxElement.displacement p h 0.5 40)
       (120 + ParallaxElement.displacement p h 0 25) 700 false) == 120.
Proof.
  intros p h. split; [reflexivity | ].
  assert (Hq : 0 <= ParallaxElement.animationQuality h) by (vm_compute; discriminate).
  destruct (X18_transform_at_rest_and_in_range p h
              (ParallaxElement.mkStyle (ParallaxElement.displacement p h 0.5 40)
                 (120 + ParallaxElement.displacement p h 0 25) 700 false)
              Hq eq_refl) as (_ & Hy & _).
  apply Hy. reflexivity.
Defined.

(** ** How long a release lasts *)

Section ReleaseAndSmoothing.

Import TouchPosition.

Lemma scale_53 : 0 <= scale 53 1 /\ scale 53 1 < 0.0125.
Proof. split; vm_compute; [discriminate | reflexivity]. Qed.

Lemma release_stays_stopped (n m : nat) (p : Vec2) :
  release n p = (vec2 0 0, false) -> (n <= m)%nat -> release m p = (vec2 0 0, false).
Proof.
  intros H L. induction L as [ | m L IH]; [exact H | ].
  rewrite release_S, IH. reflexivity.
Qed.

End ReleaseAndSmoothing.

(** X19.  From any position with both components between -0.8 and 0.8, as
    every touch position is, the release interval has snapped the position
    to (0, 0) and cleared itself after 53 ticks, and it stays so; from
    (0.8, 0.8) it is still running after 52. *)
Theorem X19_release_lasts_at_most_53_ticks (p : Vec2) (m : nat) :
  within 0.8 p -> (53 <= m)%nat ->
  TouchPosition.release m p = (vec2 0 0, false) /\
  snd (TouchPosition.release 52 (vec2 0.8 0.8)) = true.
Proof.
  intros ((H1 & H2) & (H3 & H4)) Hm. split; [ | vm_compute; reflexivity].
  apply (release_stays_stopped 53); [ | exact Hm].
  destruct scale_53 as (R0 & R1).
  assert (Hsmall : forall v, - 0.8 <= v -> v <= 0.8 ->
                             Qabs (TouchPosition.scale 53 v) < 0.01).
  { intros v V1 V2. rewrite scale_linear, Qabs_Qmult.
    rewrite (Qabs_pos (TouchPosition.scale 53 1)) by exact R0.
    assert (Va : Qabs v <= 0.8) by (apply Qabs_Qle_condition; split; assumption).
    pose proof (Qabs_nonneg v).
    set (a := Qabs v) in *. clearbody a.
    set (r := TouchPosition.scale 53 1) in *. clearbody r. nra. }
  assert (R : snd (TouchPosition.release 53 p) = false)
    by (apply (release_stops_when_small 52 p); apply Hsmall; assumption).
  pose proof (release_stopped 53 p R) as E.
  destruct (TouchPosition.release 53 p) as [p' r]. cbn [fst snd] in *. congruence.
Qed.

Lemma X19_release_lasts_at_most_53_ticks_witness :
  TouchPosition.release 60 (vec2 0.8 (-0.3)) = (vec2 0 0, false).
Proof.
  apply (X19_release_lasts_at_most_53_ticks (vec2 0.8 (-0.3)) 60).
  - unfold within. simpl. repeat split; vm_compute; discriminate.
  - lia.
Defined.


(** ** The open gate, the order of the levels, the range of the policy *)

(** X21.  After the support check on a window of the mobile class with the
    vibration capability, and with the preference enabled, [vibrate] makes
    exactly one call, with the pattern it was given, and leaves the stored
    preference alone. *)
Theorem X21_vibrate_with_all_gates_open
        (w : Window) (s0 : HapticFeedback.state) (now : Z) (p : Pattern)
        (world : World) :
  navigator_vibrate w = true -> mobileClass w = true ->
  HapticFeedback.isEnabled s0 = true ->
  HapticFeedback.vibrate (HapticFeedback.checkSupport w s0) now p world
  = mkWorld (vibrations world ++ [(now, p)]) (haptic_feedback world).
Proof.
  intros Hv Hm He. unfold HapticFeedback.vibrate, HapticFeedback.checkSupport.
  cbn [HapticFeedback.isSupported HapticFeedback.isEnabled HapticFeedback.isMobile].
  rewrite Hv, Hm, He. reflexivity.
Qed.

Lemma X21_vibrate_with_all_gates_open_witness :
  HapticFeedback.vibrate (HapticFeedback.checkSupport phone HapticFeedback.initial)
    1000 (pulses [15; 50; 10]%Z) (mkWorld [(900%Z, ms 12)] (Some "true"%string))
  = mkWorld [(900%Z, ms 12); (1000%Z, pulses [15; 50; 10]%Z)] (Some "true"%string).
Proof.
  apply (X21_vibrate_with_all_gates_open phone HapticFeedback.initial 1000
           (pulses [15; 50; 10]%Z) (mkWorld [(900%Z, ms 12)] (Some "true"%string)));
    reflexivity.
Defined.

(** X22.  The level never goes down when the average goes up: for two
    averages in order, the level of the smaller one is at most the level of
    the larger one, with [low] below [medium] below [high]. *)
Theorem X22_level_is_monotone (a b : Q) :
  a <= b ->
  (rank (PerformanceMonitor.levelOf a) <= rank (PerformanceMonitor.levelOf b))%nat.
Proof.
  intro H. unfold PerformanceMonitor.levelOf.
  destruct (JS.geb a 55) eqn:A1; destruct (JS.geb b 55) eqn:B1;
    destruct (JS.geb a 35) eqn:A2; destruct (JS.geb b 35) eqn:B2;
    cbn [rank]; try lia;
    repeat match goal with
           | E : JS.geb _ _ = true |- _ => apply geb_le in E
           | E : JS.geb _ _ = false |- _ => apply geb_lt in E
           end; lra.
Qed.

Lemma X22_level_is_monotone_witness :
  (rank (PerformanceMonitor.levelOf 34.9) <= rank (PerformanceMonitor.levelOf 55))%nat.
Proof.
  apply (X22_level_is_monotone 34.9 55). vm_compute. discriminate.
Defined.

(** X23.  Under any policy the animation hook installs, an element that is
    rendered with a transform keeps the interaction term of each axis within
    the largest displacement of its size class (60, 45 or 30), whatever the
    interaction vector and the scroll offset: the quality of a policy is
    positive and at most 1. *)
Theorem X23_transform_within_the_size_class
        (l : PerformanceLevel) (enabled : bool) (innerWidth : Z)
        (p : ParallaxElement.Props) (scrollOffset : Q) (position : Vec2)
        (isInView : bool) (st : ParallaxElement.Style) :
  let pol := OptimizedAnimation.effect l enabled innerWidth in
  (0 < OptimizedAnimation.animationQuality pol /\
   OptimizedAnimation.animationQuality pol <= 1) /\
  (ParallaxElement.render p
     (ParallaxElement.mkHooks scrollOffset position
        (OptimizedAnimation.shouldAnimate pol)
        (OptimizedAnimation.animationQuality pol) l isInView) = Some st ->
   Qabs (ParallaxElement.translateX st)
   <= ParallaxElement.maxDisplacement (ParallaxElement.size p) /\
   Qabs (ParallaxElement.translateY st - scrollOffset)
   <= ParallaxElement.maxDisplacement (ParallaxElement.size p)).
Proof.
  intro pol.
  assert (Hq : 0 < OptimizedAnimation.animationQuality pol /\
               OptimizedAnimation.animationQuality pol <= 1).
  { unfold pol. destruct l; cbn; split; lra. }
  split; [exact Hq | ]. destruct Hq as (Hq0 & Hq1).
  set (h := ParallaxElement.mkHooks scrollOffset position
              (OptimizedAnimation.shouldAnimate pol)
              (OptimizedAnimation.animationQuality pol) l isInView).
  intro Hr. unfold ParallaxElement.render in Hr.
  destruct (negb (ParallaxElement.shouldAnimate h) || _); [discriminate | ].
  injection Hr as <-. cbn [ParallaxElement.translateX ParallaxElement.translateY].
  assert (Hq : 0 <= ParallaxElement.animationQuality h) by (cbn; lra).
  pose proof (displacement_bounds p h (x (ParallaxElement.interactionPosition h)) 40 Hq)
    as Bx.
  pose proof (displacement_bounds p h (y (ParallaxElement.interactionPosition h)) 25 Hq)
    as By.
  rewrite maxMovement_maxDisplacement in Bx, By.
  change (ParallaxElement.animationQuality h)
    with (OptimizedAnimation.animationQuality pol) in Bx, By.
  change (ParallaxElement.scrollOffset h) with scrollOffset.
  assert (Hd : 0 <= ParallaxElement.maxDisplacement (ParallaxElement.size p))
    by (destruct (ParallaxElement.size p); cbn; lra).
  set (d := ParallaxElement.maxDisplacement (ParallaxElement.size p)) in *. clearbody d.
  set (Dx := ParallaxElement.displacement p h _ 40) in *. clearbody Dx.
  set (Dy := ParallaxElement.displacement p h _ 25) in *. clearbody Dy.
  clear Hq h. set (q := OptimizedAnimation.animationQuality pol) in *. clearbody q.
  split; apply Qabs_Qle_condition; split; nra.
Qed.

Lemma X23_transform_within_the_size_class_witness :
  let pol := OptimizedAnimation.effect medium true 1280 in
  let p := ParallaxElement.mkProps 0.35 0.18 ParallaxElement.small in
  let h := ParallaxElement.mkHooks 120 (vec2 50 (-50))
             (OptimizedAnimation.shouldAnimate pol)
             (OptimizedAnimation.animationQuality pol) medium true in
  Qabs (ParallaxElement.displacement p h 50 40) <= 60.
Proof.
  intros pol p h.
  destruct (X23_transform_within_the_size_class medium true 1280 p 120
              (vec2 50 (-50)) true
              (ParallaxElement.mkStyle
                 (ParallaxElement.displacement p h 50 40)
                 (120 + ParallaxElement.displacement p h (-50) 25) 700 false))
    as (_ & H).
  exact (proj1 (H eq_refl)).
Defined.
